(** * Clinic booking form: the specialty -> doctor list binder

    A model of [clinic/static/clinic/js/scripts.js]: the [DOMContentLoaded]
    handler, the [change] listener it puts on the specialty control, and the
    promise callback that rebuilds the doctor control from the answer of
    [/get-doctors/].

    The script runs on the browser's single UI thread.  The model is an event
    loop over a [World]: the document (elements looked up by id) and the
    requests that are in flight.  A listener or a promise callback is a
    computation that may stop with an exception after having changed the
    document; what it changed before the exception stays changed. *)

From Stdlib Require Import Ascii.
From stdpp Require Import base option list strings gmap.

Set Warnings "-register-all".

Open Scope string_scope.
Open Scope list_scope.

(** ** Values that [response.json()] can produce *)

Module JS.

(** A number is kept as the decimal text JavaScript prints for it
    ([7] as ["7"], [2.5] as ["2.5"]): the script never computes with a number
    of the response, it only turns it into text or compares it with zero.
    An object is the list of its own properties in the order of the JSON text;
    a later binding of a key hides an earlier one, as [JSON.parse] does. *)
Inductive json : Type :=
  | JNull
  | JBool (b : bool)
  | JNum (repr : string)
  | JStr (s : string)
  | JArr (items : list json)
  | JObj (props : list (string * json)).

(** The result of reading a property: a parsed value or [undefined]. *)
Inductive value : Type :=
  | Undefined
  | Val (j : json).

Inductive exn : Type :=
  | TypeError
  | SyntaxError.

(** How a piece of JavaScript ends. *)
Inductive completion (A : Type) : Type :=
  | Normal (a : A)
  | Throw (e : exn).
Arguments Normal {A} a.
Arguments Throw {A} e.

Definition is_normal {A} (c : completion A) : bool :=
  match c with Normal _ => true | Throw _ => false end.

(** Own-property lookup: the last binding of the key wins. *)
Fixpoint own_property {A} (k : string) (props : list (string * A)) : option A :=
  match props with
  | [] => None
  | (k', v) :: rest =>
      match own_property k rest with
      | Some w => Some w
      | None => if decide (k = k') then Some v else None
      end
  end.

(** [v.k] for a key [k] that no built-in prototype defines and that is neither
    an index nor [length]; the script reads [id] and [name] this way.  Reading
    a property of [null] throws; a boolean, number, string or array has no
    such property; an object answers with its own property. *)
Definition get_field (v : json) (k : string) : completion value :=
  match v with
  | JNull => Throw TypeError
  | JObj props =>
      Normal (match own_property k props with
              | Some x => Val x
              | None => Undefined
              end)
  | JBool _ | JNum _ | JStr _ | JArr _ => Normal Undefined
  end.

(** [Array.prototype.join] with the default comma, given the conversion of an
    item: [null] items give the empty text. *)
Definition join_with (item_text : json → option string)
    : list json → option string :=
  fix join (l : list json) : option string :=
    match l with
    | [] => Some ""
    | x :: rest =>
        let item := match x with JNull => Some "" | _ => item_text x end in
        match rest with
        | [] => item
        | _ :: _ =>
            match item, join rest with
            | Some s, Some r => Some (s +:+ "," +:+ r)
            | _, _ => None
            end
        end
    end.

(** ECMAScript [ToString] on a parsed value; [None] stands for the
    [TypeError] of [OrdinaryToPrimitive].  An array is joined with commas.
    A plain object prints as ["[object Object]"] through
    [Object.prototype.toString], unless the JSON gave it an own property
    [toString]: that value is not callable, [valueOf] only returns the object
    again, and the conversion throws. *)
Fixpoint to_string (v : json) : option string :=
  match v with
  | JNull => Some "null"
  | JBool b => Some (if b then "true" else "false")
  | JNum repr => Some repr
  | JStr s => Some s
  | JArr items => join_with to_string items
  | JObj props =>
      match own_property "toString" props with
      | Some _ => None
      | None => Some "[object Object]"
      end
  end.

(** Web IDL conversion to [DOMString], as the setter of [option.value] does. *)
Definition to_DOMString (v : value) : completion string :=
  match v with
  | Undefined => Normal "undefined"
  | Val j =>
      match to_string j with
      | Some s => Normal s
      | None => Throw TypeError
      end
  end.

(** Web IDL conversion to [DOMString?] followed by the [textContent] setter:
    [undefined] and [null] become the empty text. *)
Definition to_textContent (v : value) : completion string :=
  match v with
  | Undefined | Val JNull => Normal ""
  | Val j =>
      match to_string j with
      | Some s => Normal s
      | None => Throw TypeError
      end
  end.

(** Truthiness of a string, the test of [if (specialtyId)]. *)
Definition truthy (s : string) : bool :=
  match s with
  | EmptyString => false
  | String _ _ => true
  end.

(** A number, given by its printed text, is above zero unless it prints as
    ["0"] or with a minus sign. *)
Definition num_gt0 (repr : string) : bool :=
  match repr with
  | EmptyString => false
  | String c rest =>
      negb (bool_decide (c = "-"%char))
      && negb (bool_decide (repr = "0"))
  end.

End JS.

Import JS.

(** ** The document *)

(** An [<option>] element: its [value] content attribute when it has one,
    its text, and whether it carries [disabled]. *)
Record OptionEl : Type := mkOption {
  opt_value : option string;
  opt_text : string;
  opt_disabled : bool
}.

(** A disabled option cannot be picked; any other option of a select can. *)
Definition selectable (o : OptionEl) : bool := negb (opt_disabled o).

(** The two functions the script registers for [change]. *)
Inductive Listener : Type :=
  | OnSpecialtyChange
  | OnDateChange.

(** A form control: the value [this.value] reads (the script reads it on the
    specialty control only), its [<option>] children, and its [change]
    listeners in registration order. *)
Record Element : Type := mkElement {
  el_value : string;
  el_options : list OptionEl;
  el_listeners : list Listener
}.

Definition with_value (v : string) (e : Element) : Element :=
  mkElement v (el_options e) (el_listeners e).
Definition with_options (os : list OptionEl) (e : Element) : Element :=
  mkElement (el_value e) os (el_listeners e).
Definition add_listener (l : Listener) (e : Element) : Element :=
  mkElement (el_value e) (el_options e) (el_listeners e ++ [l]).

(** What [document.getElementById] returns: [null] or a reference to the
    element registered under the id.  Two references to one id are the same
    element. *)
Inductive ref : Type :=
  | RNull
  | RElem (id : string).

(** A [fetch] that has not settled: its URL and the [doctorSelect] its
    callback closed over. *)
Record Request : Type := mkRequest {
  req_url : string;
  req_doctorSelect : ref
}.

Record World : Type := mkWorld {
  dom : gmap string Element;
  inflight : list Request
}.

Definition with_dom (f : gmap string Element → gmap string Element) (w : World) : World :=
  mkWorld (f (dom w)) (inflight w).

(** ** Computations over the world *)

Definition M (A : Type) : Type := World → World * completion A.

Definition throw {A} (e : exn) : M A := λ w, (w, Throw e).
Definition lift {A} (c : completion A) : M A := λ w, (w, c).

#[global] Instance M_ret : MRet M := λ A a w, (w, Normal a).
#[global] Instance M_bind : MBind M := λ A B k m w,
  match m w with
  | (w', Normal a) => k a w'
  | (w', Throw e) => (w', Throw e)
  end.

(** [array.forEach(f)] on the items of an array. *)
Fixpoint forEach {A} (f : A → M unit) (l : list A) : M unit :=
  match l with
  | [] => mret tt
  | x :: rest => f x;; forEach f rest
  end.

(** ** DOM operations the script uses *)

Definition getElementById (id : string) : M ref :=
  λ w, (w, Normal (match dom w !! id with
                   | Some _ => RElem id
                   | None => RNull
                   end)).

Definition get_value (r : ref) : M string :=
  λ w, match r with
       | RNull => (w, Throw TypeError)
       | RElem id => (w, Normal (default "" (el_value <$> dom w !! id)))
       end.

Definition addEventListener (r : ref) (l : Listener) : M unit :=
  λ w, match r with
       | RNull => (w, Throw TypeError)
       | RElem id => (with_dom (alter (add_listener l) id) w, Normal tt)
       end.

Definition appendChild (r : ref) (o : OptionEl) : M unit :=
  λ w, match r with
       | RNull => (w, Throw TypeError)
       | RElem id =>
           (with_dom (alter (λ e, with_options (el_options e ++ [o]) e) id) w,
            Normal tt)
       end.

(** [document.createElement('option')]: no attribute, no text. *)
Definition createElement_option : OptionEl := mkOption None "" false.
Definition set_option_value (s : string) (o : OptionEl) : OptionEl :=
  mkOption (Some s) (opt_text o) (opt_disabled o).
Definition set_option_textContent (s : string) (o : OptionEl) : OptionEl :=
  mkOption (opt_value o) s (opt_disabled o).

(** ** Assigning [innerHTML] on a select *)

Definition dquote : ascii := "034"%char.

(** [strip_prefix p s] is what follows [p] in [s]. *)
Fixpoint strip_prefix (p s : string) : option string :=
  match p, s with
  | EmptyString, _ => Some s
  | String a p', String b s' =>
      if decide (a = b) then strip_prefix p' s' else None
  | String _ _, EmptyString => None
  end.

(** [split_at c s] cuts [s] at its first [c]. *)
Fixpoint split_at (c : ascii) (s : string) : option (string * string) :=
  match s with
  | EmptyString => None
  | String a s' =>
      if decide (a = c) then Some (EmptyString, s')
      else '(t, r) ← split_at c s'; Some (String a t, r)
  end.

(** The children a select gets from markup made of
    [<option value=...>text</option>] elements with a quoted value, the only
    shape the script writes.  The empty markup gives no child. *)
Fixpoint parse_options (fuel : nat) (s : string) : option (list OptionEl) :=
  match s with
  | EmptyString => Some []
  | String _ _ =>
      match fuel with
      | 0 => None
      | S fuel' =>
          s1 ← strip_prefix ("<option value=" +:+ String dquote "") s;
          '(v, s2) ← split_at dquote s1;
          s3 ← strip_prefix ">" s2;
          '(t, s4) ← split_at "<" s3;
          s5 ← strip_prefix "/option>" s4;
          rest ← parse_options fuel' s5;
          Some (mkOption (Some v) t false :: rest)
      end
  end.

(** Markup of another shape does not occur in the script; the model gives it
    no child. *)
Definition parse_innerHTML (markup : string) : list OptionEl :=
  default [] (parse_options (String.length markup) markup).

Definition set_innerHTML (r : ref) (markup : string) : M unit :=
  λ w, match r with
       | RNull => (w, Throw TypeError)
       | RElem id =>
           (with_dom (alter (with_options (parse_innerHTML markup)) id) w,
            Normal tt)
       end.

(** The literal of line 25 of the script. *)
Definition choose_specialty_markup : string :=
  "<option value=" +:+ String dquote (String dquote
    ">Сначала выберите специальность</option>").

Definition choose_specialty_text : string := "Сначала выберите специальность".
Definition no_doctors_text : string := "Нет доступных врачей".

(** ** The script *)

(** What the lookup of one request comes to: the network fails, the body is
    not JSON, or [response.json()] gives a value. *)
Inductive Response : Type :=
  | NetworkError
  | ParseError
  | Parsed (data : json).

Definition failed (r : Response) : bool :=
  match r with
  | NetworkError | ParseError => true
  | Parsed _ => false
  end.

Section Script.

(** Whether a string, read as a number by [ToNumber], is above zero.  The
    script reaches this only for a response that is an object with an own
    [length]; floating point parsing is left open. *)
Variable str_gt0 : string → bool.

(** [v > 0] for a parsed value [v]. *)
Definition gt0 (v : json) : completion bool :=
  match v with
  | JNull => Normal false
  | JBool b => Normal b
  | JNum repr => Normal (num_gt0 repr)
  | JStr s => Normal (str_gt0 s)
  | JArr _ | JObj _ =>
      match to_string v with
      | Some s => Normal (str_gt0 s)
      | None => Throw TypeError
      end
  end.

(** [data.length > 0] (line 11). *)
Definition length_gt0 (data : json) : completion bool :=
  match data with
  | JNull => Throw TypeError
  | JArr items => Normal (bool_decide (0 < length items))
  | JStr s => Normal (truthy s)
  | JBool _ | JNum _ => Normal false
  | JObj props =>
      match own_property "length" props with
      | Some v => gt0 v
      | None => Normal false
      end
  end.

(** The body of the [forEach] callback (lines 13-16). *)
Definition add_doctor (doctorSelect : ref) (doctor : json) : M unit :=
  let option := createElement_option in
  id ← lift (get_field doctor "id");
  value ← lift (to_DOMString id);
  let option := set_option_value value option in
  name ← lift (get_field doctor "name");
  text ← lift (to_textContent name);
  let option := set_option_textContent text option in
  appendChild doctorSelect option.

(** [data.forEach(...)] (line 12): only an array has the method. *)
Definition data_forEach (data : json) (f : json → M unit) : M unit :=
  match data with
  | JArr items => forEach f items
  | JNull | JBool _ | JNum _ | JStr _ | JObj _ => throw TypeError
  end.

(** The callback of the second [then] (lines 9-23). *)
Definition on_data (doctorSelect : ref) (data : json) : M unit :=
  set_innerHTML doctorSelect "";;
  nonempty ← lift (length_gt0 data);
  if (nonempty : bool) then
    data_forEach data (add_doctor doctorSelect)
  else
    let option := createElement_option in
    let option := set_option_textContent no_doctors_text option in
    appendChild doctorSelect option.

(** [fetch(url).then(...).then(...)]: the request goes out and the callback
    waits with the [doctorSelect] it closed over. *)
Definition fetch_doctors (url : string) (doctorSelect : ref) : M unit :=
  λ w, (mkWorld (dom w) (inflight w ++ [mkRequest url doctorSelect]), Normal tt).

(** The [change] listener of the specialty control (lines 2-27). *)
Definition on_specialty_change (this : ref) : M unit :=
  specialtyId ← get_value this;
  doctorSelect ← getElementById "id_doctor";
  if truthy specialtyId then
    fetch_doctors ("/get-doctors/?specialty_id=" +:+ specialtyId) doctorSelect
  else
    set_innerHTML doctorSelect choose_specialty_markup.

(** The [change] listener of the date control (lines 32-34): empty. *)
Definition on_date_change (this : ref) : M unit := mret tt.

(** The [DOMContentLoaded] handler (lines 1-36). *)
Definition on_DOMContentLoaded : M unit :=
  specialty ← getElementById "id_specialty";
  addEventListener specialty OnSpecialtyChange;;
  dateInput ← getElementById "id_date";
  match dateInput with
  | RElem _ => addEventListener dateInput OnDateChange
  | RNull => mret tt
  end.

(** ** The event loop *)

Definition run_listener (l : Listener) (this : ref) : M unit :=
  match l with
  | OnSpecialtyChange => on_specialty_change this
  | OnDateChange => on_date_change this
  end.

(** The browser calls the listeners in order; an exception in one is reported
    and does not stop the next.  The result lists how each ended. *)
Fixpoint run_listeners (ls : list Listener) (this : ref) (w : World)
    : World * list (completion unit) :=
  match ls with
  | [] => (w, [])
  | l :: rest =>
      let '(w1, c) := run_listener l this w in
      let '(w2, cs) := run_listeners rest this w1 in
      (w2, c :: cs)
  end.

(** A [change] event on the element [id]. *)
Definition dispatch_change (id : string) (w : World)
    : World * list (completion unit) :=
  match dom w !! id with
  | Some e => run_listeners (el_listeners e) (RElem id) w
  | None => (w, [])
  end.

(** The user picks the entry with value [v] in the specialty control. *)
Definition pick (v : string) (w : World) : World :=
  with_dom (alter (with_value v) "id_specialty") w.

(** ... and the browser fires [change] on it. *)
Definition select_specialty (v : string) (w : World)
    : World * list (completion unit) :=
  dispatch_change "id_specialty" (pick v w).

(** The [k]-th request in flight settles with [resp]; without such a request
    nothing happens.  A failure rejects the promise chain before the callback
    of the second [then], which is not run; nothing in the script catches the
    rejection. *)
Definition settle (k : nat) (resp : Response) (w : World) : World * completion unit :=
  match inflight w !! k with
  | None => (w, Normal tt)
  | Some rq =>
      let w' := mkWorld (dom w) (delete k (inflight w)) in
      match resp with
      | NetworkError => (w', Throw TypeError)
      | ParseError => (w', Throw SyntaxError)
      | Parsed data => on_data (req_doctorSelect rq) data w'
      end
  end.

(** One specialty change carried to its end: the user picks [v], and the
    request this sent (it is the one behind those already in flight) settles
    with [resp] before anything else happens. *)
Definition change_event (v : string) (resp : Response) (w : World) : World :=
  fst (settle (length (inflight w)) resp (fst (select_specialty v w))).

(** The options of the doctor control. *)
Definition doctor_options (w : World) : option (list OptionEl) :=
  el_options <$> dom w !! "id_doctor".

End Script.

(** ** The page *)

(** The script has been set up once: the specialty control carries the
    listener of the script and nothing else. *)
Definition page_ready (w : World) : Prop :=
  el_listeners <$> dom w !! "id_specialty" = Some [OnSpecialtyChange].

(** A booking form before the script runs: three controls without listeners,
    the doctor control holding two options of an earlier rendering. *)
Definition fresh_page : World :=
  mkWorld
    (<["id_specialty" := mkElement "" [] []]>
     (<["id_doctor" := mkElement ""
          [mkOption (Some "1") "Dr. Sidorov" false;
           mkOption (Some "2") "Dr. Orlova" false] []]>
      (<["id_date" := mkElement "" [] []]> ∅)))
    [].

Definition booking_page : World := fst (on_DOMContentLoaded fresh_page).

(** A page whose only control is the specialty select. *)
Definition specialty_only_page : World :=
  mkWorld (<["id_specialty" := mkElement "" [] []]> ∅) [].

(** ** The data model of the specification *)

(** An identifier is numeric or a string; a doctor has an identifier and a
    name. *)
Inductive Identifier : Type :=
  | IdNum (repr : string)
  | IdStr (s : string).

Record Doctor : Type := mkDoctor {
  doc_id : Identifier;
  doc_name : string
}.

Definition id_json (i : Identifier) : json :=
  match i with
  | IdNum repr => JNum repr
  | IdStr s => JStr s
  end.

Definition id_text (i : Identifier) : string :=
  match i with
  | IdNum repr => repr
  | IdStr s => s
  end.

(** The JSON value [j] is a record of the doctor [d]: reading [id] and [name]
    on it gives the identifier and the name.  Other properties may be there. *)
Definition doctor_record (j : json) (d : Doctor) : Prop :=
  get_field j "id" = Normal (Val (id_json (doc_id d)))
  ∧ get_field j "name" = Normal (Val (JStr (doc_name d))).

(** The option that shows a doctor. *)
Definition doctor_option (d : Doctor) : OptionEl :=
  mkOption (Some (id_text (doc_id d))) (doc_name d) false.

(** ** The rebuild as a function of the response *)

(** The option the [forEach] callback makes of one item, or the exception it
    stops with. *)
Definition option_for (doctor : json) : completion OptionEl :=
  match get_field doctor "id" with
  | Throw e => Throw e
  | Normal id =>
      match to_DOMString id with
      | Throw e => Throw e
      | Normal value =>
          match get_field doctor "name" with
          | Throw e => Throw e
          | Normal name =>
              match to_textContent name with
              | Throw e => Throw e
              | Normal text => Normal (mkOption (Some value) text false)
              end
          end
      end
  end.

(** The options appended by the loop, up to the first item that throws. *)
Fixpoint options_for (items : list json) : list OptionEl * completion unit :=
  match items with
  | [] => ([], Normal tt)
  | x :: rest =>
      match option_for x with
      | Normal o => let '(os, c) := options_for rest in (o :: os, c)
      | Throw e => ([], Throw e)
      end
  end.

(** A value prints without an exception: no object with an own [toString]
    is reached through arrays. *)
Fixpoint printable (v : json) : bool :=
  match v with
  | JNull | JBool _ | JNum _ | JStr _ => true
  | JArr items => forallb printable items
  | JObj props =>
      match own_property "toString" props with
      | Some _ => false
      | None => true
      end
  end.

Definition field_printable (k : string) (props : list (string * json)) : bool :=
  match own_property k props with
  | Some v => printable v
  | None => true
  end.

(** An item the loop can show: anything but [null], and for an object its
    [id] and [name], when present, are printable. *)
Definition showable (doctor : json) : bool :=
  match doctor with
  | JNull => false
  | JBool _ | JNum _ | JStr _ | JArr _ => true
  | JObj props => field_printable "id" props && field_printable "name" props
  end.

Definition no_doctors_option : OptionEl := mkOption None no_doctors_text false.
Definition choose_specialty_option : OptionEl :=
  mkOption (Some "") choose_specialty_text false.

(** The world in which the element [id], if there, has the options [os]. *)
Definition set_options (id : string) (os : list OptionEl) (w : World) : World :=
  with_dom (alter (with_options os) id) w.

(** What [document.getElementById('id_doctor')] gives in [w]. *)
Definition doctor_ref (w : World) : ref :=
  match dom w !! "id_doctor" with
  | Some _ => RElem "id_doctor"
  | None => RNull
  end.

(** The URL of line 7 for the selection [v]. *)
Definition doctors_url (v : string) : string :=
  "/get-doctors/?specialty_id=" +:+ v.

(** The requests the listener of the script sends close over the doctor
    control of the page. *)
Definition doctors_request (v : string) (w : World) : Request :=
  mkRequest (doctors_url v) (doctor_ref w).

(** The response of the example of the specification, and its doctors. *)
Definition example_items : list json :=
  [JObj [("id", JNum "7"); ("name", JStr "Dr. Ivanova")];
   JObj [("id", JNum "9"); ("name", JStr "Dr. Petrov")]].

Definition example_doctors : list Doctor :=
  [mkDoctor (IdNum "7") "Dr. Ivanova"; mkDoctor (IdNum "9") "Dr. Petrov"].

(** Items that are not doctor records: an object without [id], a number. *)
Definition odd_items : list json :=
  [JObj [("name", JStr "Dr. Ivanova")]; JNum "5"].

(** A reading of strings as numbers for the examples: none is above zero. *)
Definition no_string_gt0 (s : string) : bool := false.

Section Rebuild.

Variable str_gt0 : string → bool.

(** What the callback leaves in the control it emptied, and how it ends. *)
Definition rebuild (data : json) : list OptionEl * completion unit :=
  match length_gt0 str_gt0 data with
  | Throw e => ([], Throw e)
  | Normal true =>
      match data with
      | JArr items => options_for items
      | JNull | JBool _ | JNum _ | JStr _ | JObj _ => ([], Throw TypeError)
      end
  | Normal false => ([no_doctors_option], Normal tt)
  end.

(** The options after one change as a function of the options before it. *)
Definition options_after (v : string) (resp : Response)
    (old : option (list OptionEl)) : option (list OptionEl) :=
  if truthy v then
    match resp with
    | Parsed data => (λ _, fst (rebuild data)) <$> old
    | NetworkError | ParseError => old
    end
  else (λ _, [choose_specialty_option]) <$> old.

End Rebuild.

(** ** Induction on parsed values *)

Section json_induction.

Variable P : json → Prop.
Hypothesis Hnull : P JNull.
Hypothesis Hbool : ∀ b, P (JBool b).
Hypothesis Hnum : ∀ repr, P (JNum repr).
Hypothesis Hstr : ∀ s, P (JStr s).
Hypothesis Harr : ∀ items, Forall P items → P (JArr items).
Hypothesis Hobj : ∀ props, Forall (λ kv, P kv.2) props → P (JObj props).

(** Induction on a parsed value, with the hypothesis for every item of an
    array and every property value of an object. *)
Fixpoint json_nested_ind (j : json) : P j :=
  match j with
  | JNull => Hnull
  | JBool b => Hbool b
  | JNum repr => Hnum repr
  | JStr s => Hstr s
  | JArr items =>
      Harr items
        ((fix go (l : list json) : Forall P l :=
            match l with
            | [] => @List.Forall_nil json P
            | x :: rest =>
                @List.Forall_cons json P x rest (json_nested_ind x) (go rest)
            end) items)
  | JObj props =>
      Hobj props
        ((fix go (l : list (string * json)) : Forall (λ kv, P kv.2) l :=
            match l with
            | [] => @List.Forall_nil (string * json) (λ kv, P kv.2)
            | kv :: rest =>
                @List.Forall_cons (string * json) (λ kv, P kv.2) kv rest
                  (json_nested_ind kv.2) (go rest)
            end) props)
  end.

End json_induction.

(** ** Sequences of events *)

(** The user picks the date [d] in the date control and the browser fires
    [change] on it. *)
Definition pick_date (d : string) (w : World) : World :=
  with_dom (alter (with_value d) "id_date") w.

Definition select_date (d : string) (w : World)
    : World * list (completion unit) :=
  dispatch_change "id_date" (pick_date d w).

(** What can happen on the page once the script is set up. *)
Inductive Event : Type :=
  | UserSelects (v : string)
  | UserPicksDate (d : string)
  | Settles (k : nat) (resp : Response).

(** The page after the [DOMContentLoaded] handler ran once on controls that
    had no listener: the specialty control carries the listener of the
    script, the date control, when there, the empty one. *)
Definition page_set_up (w : World) : Prop :=
  page_ready w
  ∧ (el_listeners <$> dom w !! "id_date" = None
     ∨ el_listeners <$> dom w !! "id_date" = Some [OnDateChange]).

(** Every request in flight is one the listener of the script sent on this
    page: its callback closed over what [getElementById('id_doctor')] gives,
    and its URL is that of a non-empty selection. *)
Definition requests_from_script (w : World) : Prop :=
  Forall (λ rq, req_doctorSelect rq = doctor_ref w
                ∧ ∃ v, v ≠ "" ∧ req_url rq = doctors_url v)
    (inflight w).

(** What two documents share when only the script and the picks of the user
    ran in between: the listeners of every element, the options of every
    element but the doctor control, the value of every element but the two
    the user picks in. *)
Definition same_but_doctor (d d' : gmap string Element) : Prop :=
  ∀ id,
    el_listeners <$> d' !! id = el_listeners <$> d !! id
    ∧ (id ≠ "id_doctor" → el_options <$> d' !! id = el_options <$> d !! id)
    ∧ (id ≠ "id_specialty" → id ≠ "id_date" →
       el_value <$> d' !! id = el_value <$> d !! id).

(** The items in front of the first one the loop cannot show. *)
Fixpoint shown_prefix (items : list json) : list json :=
  match items with
  | [] => []
  | x :: rest => if showable x then x :: shown_prefix rest else []
  end.

(** The option the loop makes of an item that has neither [id] nor [name]. *)
Definition blank_option : OptionEl := mkOption (Some "undefined") "" false.

(** An item with neither field to read: not [null] (reading a field of it
    throws), and when an object, one with no own [id] and no own [name]. *)
Definition fieldless (j : json) : bool :=
  match j with
  | JNull => false
  | JBool _ | JNum _ | JStr _ | JArr _ => true
  | JObj props =>
      match own_property "id" props, own_property "name" props with
      | None, None => true
      | _, _ => false
      end
  end.

Definition is_array (j : json) : bool :=
  match j with
  | JArr _ => true
  | JNull | JBool _ | JNum _ | JStr _ | JObj _ => false
  end.

Section Traces.

Variable str_gt0 : string → bool.

Definition step (ev : Event) (w : World) : World :=
  match ev with
  | UserSelects v => fst (select_specialty v w)
  | UserPicksDate d => fst (select_date d w)
  | Settles k resp => fst (settle str_gt0 k resp w)
  end.

Definition run (evs : list Event) (w : World) : World :=
  foldl (λ w ev, step ev w) w evs.

(** The same events on a counter of requests in flight and the options of
    the doctor control: a non-empty selection adds a request, the empty one
    writes the placeholder, a response to a request in flight removes it and,
    when it parsed, writes what [rebuild] makes of it. *)
Definition count_step (st : nat * option (list OptionEl)) (ev : Event)
    : nat * option (list OptionEl) :=
  let '(n, opts) := st in
  match ev with
  | UserSelects v =>
      if truthy v then (S n, opts)
      else (n, (λ _, [choose_specialty_option]) <$> opts)
  | UserPicksDate _ => (n, opts)
  | Settles k resp =>
      if bool_decide (k < n) then
        (n - 1,
         match resp with
         | Parsed data => (λ _, fst (rebuild str_gt0 data)) <$> opts
         | NetworkError | ParseError => opts
         end)
      else (n, opts)
  end.

End Traces.

(** A session on the booking page: specialty 3, a date, specialty 5, then
    the empty answer for 5 and last the two doctors of 3. *)
Definition example_events : list Event :=
  [UserSelects "3"; UserPicksDate "2026-11-02"; UserSelects "5";
   Settles 1 (Parsed (JArr [])); Settles 0 (Parsed (JArr example_items))].

(** A response with a [null] between two records. *)
Definition items_with_null : list json :=
  [JObj [("id", JNum "7"); ("name", JStr "Dr. Ivanova")];
   JNull;
   JObj [("id", JNum "9"); ("name", JStr "Dr. Petrov")]].

(** A response that lists names only. *)
Definition name_items : list json := [JStr "Dr. Ivanova"; JStr "Dr. Petrov"].

(** * Properties *)

(** ** Parsing the two literals *)

Example parse_choose_specialty :
  parse_innerHTML choose_specialty_markup = [choose_specialty_option].
Proof. vm_compute. reflexivity. Qed.

Example parse_empty : parse_innerHTML "" = [].
Proof. reflexivity. Qed.

(** ** Writing the options of an element *)

Lemma with_options_twice os os' e :
  with_options os (with_options os' e) = with_options os e.
Proof. by destruct e. Qed.

Lemma set_options_twice id os os' w :
  set_options id os (set_options id os' w) = set_options id os w.
Proof.
  unfold set_options, with_dom; simpl. f_equal.
  rewrite alter_alter_eq. apply alter_ext.
  intros e _. apply with_options_twice.
Qed.

Lemma set_options_inflight id os w : inflight (set_options id os w) = inflight w.
Proof. reflexivity. Qed.

Lemma set_options_lookup id os w :
  dom (set_options id os w) !! id = with_options os <$> dom w !! id.
Proof. unfold set_options; simpl. apply lookup_alter_eq. Qed.

Lemma set_options_lookup_ne id id' os w :
  id ≠ id' → dom (set_options id os w) !! id' = dom w !! id'.
Proof. intros Hne. unfold set_options; simpl. by apply lookup_alter_ne. Qed.

Lemma set_innerHTML_elem id markup w :
  set_innerHTML (RElem id) markup w
  = (set_options id (parse_innerHTML markup) w, Normal tt).
Proof. reflexivity. Qed.

Lemma appendChild_set_options id o os w :
  appendChild (RElem id) o (set_options id os w)
  = (set_options id (os ++ [o]) w, Normal tt).
Proof.
  unfold appendChild, set_options, with_dom; simpl. do 2 f_equal.
  rewrite alter_alter_eq. apply alter_ext.
  intros e _. by destruct e.
Qed.

Lemma doctor_options_set os w :
  doctor_options (set_options "id_doctor" os w)
  = (λ _, os) <$> dom w !! "id_doctor".
Proof.
  unfold doctor_options. rewrite set_options_lookup.
  by destruct (dom w !! "id_doctor").
Qed.

(** ** The callback of the response *)

Section Properties.

Variable str_gt0 : string → bool.

Lemma truthy_nonempty (s : string) : truthy s = true ↔ s ≠ "".
Proof. destruct s; simpl; split; congruence. Qed.

Lemma add_doctor_option_for r doctor w :
  add_doctor r doctor w
  = match option_for doctor with
    | Normal o => appendChild r o w
    | Throw e => (w, Throw e)
    end.
Proof.
  unfold add_doctor, option_for, mbind, M_bind, lift.
  destruct (get_field doctor "id") as [id|]; [|done].
  destruct (to_DOMString id) as [value|]; [|done].
  destruct (get_field doctor "name") as [name|]; [|done].
  by destruct (to_textContent name).
Qed.

Lemma forEach_add_doctor id items : ∀ os w,
  forEach (add_doctor (RElem id)) items (set_options id os w)
  = (set_options id (os ++ fst (options_for items)) w, snd (options_for items)).
Proof.
  induction items as [|x rest IH]; intros os w; cbn [forEach options_for].
  - by rewrite app_nil_r.
  - unfold mbind, M_bind at 1. rewrite add_doctor_option_for.
    destruct (option_for x) as [o|e].
    + rewrite appendChild_set_options, IH.
      destruct (options_for rest) as [os' c]; cbn [fst snd].
      by rewrite <- app_assoc.
    + cbn [fst snd]. by rewrite app_nil_r.
Qed.

(** On an element, the callback leaves exactly what [rebuild] computes from
    the response, whatever the element held. *)
Lemma on_data_elem id data w :
  on_data str_gt0 (RElem id) data w
  = (set_options id (fst (rebuild str_gt0 data)) w, snd (rebuild str_gt0 data)).
Proof.
  unfold on_data, rebuild, mbind, M_bind, lift.
  rewrite set_innerHTML_elem. change (parse_innerHTML "") with (@nil OptionEl).
  destruct (length_gt0 str_gt0 data) as [[|]|e]; [| |done].
  - destruct data; try done.
    unfold data_forEach. by rewrite forEach_add_doctor.
  - by rewrite appendChild_set_options.
Qed.

(** On [null] the first statement of the callback throws. *)
Lemma on_data_null data w :
  on_data str_gt0 RNull data w = (w, Throw TypeError).
Proof. reflexivity. Qed.

(** ** The listener *)

Lemma pick_lookup_ne v w id :
  id ≠ "id_specialty" → dom (pick v w) !! id = dom w !! id.
Proof. intros Hne. unfold pick; simpl. by apply lookup_alter_ne. Qed.

Lemma doctor_ref_pick v w : doctor_ref (pick v w) = doctor_ref w.
Proof. unfold doctor_ref. by rewrite pick_lookup_ne. Qed.

Lemma on_specialty_change_ready v w :
  page_ready w →
  on_specialty_change (RElem "id_specialty") (pick v w)
  = if truthy v
    then (mkWorld (dom (pick v w))
            (inflight w ++ [mkRequest (doctors_url v) (doctor_ref w)]),
          Normal tt)
    else set_innerHTML (doctor_ref w) choose_specialty_markup (pick v w).
Proof.
  unfold page_ready. intros Hready.
  destruct (dom w !! "id_specialty") as [e|] eqn:He; [|done].
  unfold on_specialty_change, mbind, M_bind, get_value, getElementById.
  assert (dom (pick v w) !! "id_specialty" = Some (with_value v e)) as ->.
  { unfold pick; simpl. by rewrite lookup_alter_eq, He. }
  cbn [fmap option_fmap option_map default el_value with_value].
  rewrite pick_lookup_ne by done.
  fold (doctor_ref w). unfold id. by destruct (truthy v).
Qed.

Lemma select_specialty_ready v w :
  page_ready w →
  select_specialty v w
  = let '(w1, c) := on_specialty_change (RElem "id_specialty") (pick v w) in
    (w1, [c]).
Proof.
  unfold page_ready. intros Hready.
  destruct (dom w !! "id_specialty") as [e|] eqn:He; [|done].
  injection Hready as Hl.
  unfold select_specialty, dispatch_change.
  assert (dom (pick v w) !! "id_specialty" = Some (with_value v e)) as ->.
  { unfold pick; simpl. by rewrite lookup_alter_eq, He. }
  simpl. rewrite Hl. simpl.
  by destruct (on_specialty_change _ _).
Qed.

(** A non-empty selection, carried to its end. *)
Lemma change_event_nonempty v resp w :
  page_ready w → truthy v = true →
  change_event str_gt0 v resp w
  = match resp with
    | Parsed data => fst (on_data str_gt0 (doctor_ref w) data (pick v w))
    | NetworkError | ParseError => pick v w
    end.
Proof.
  intros Hready Hv. unfold change_event.
  rewrite select_specialty_ready, on_specialty_change_ready, Hv by done.
  simpl. unfold settle; simpl.
  rewrite list_lookup_middle by done.
  replace (delete (length (inflight w)) (inflight w ++ [_])) with (inflight w)
    by (by rewrite delete_middle, app_nil_r).
  by destruct resp.
Qed.

(** The empty selection, carried to its end. *)
Lemma change_event_empty resp w :
  page_ready w →
  change_event str_gt0 "" resp w
  = fst (set_innerHTML (doctor_ref w) choose_specialty_markup (pick "" w)).
Proof.
  intros Hready. unfold change_event.
  rewrite select_specialty_ready, on_specialty_change_ready by done.
  simpl truthy. cbv iota.
  assert (inflight (fst (set_innerHTML (doctor_ref w) choose_specialty_markup
                           (pick "" w))) = inflight w) as Hin
    by (by destruct (doctor_ref w)).
  destruct (set_innerHTML _ _ _) as [w1 c]; simpl in *.
  unfold settle. rewrite Hin.
  by rewrite lookup_ge_None_2.
Qed.

(** ** What a response is rebuilt into *)

Lemma option_for_doctor j d :
  doctor_record j d → option_for j = Normal (doctor_option d).
Proof.
  intros [Hid Hname]. unfold option_for. rewrite Hid, Hname.
  by destruct d as [[repr|s] name].
Qed.

Lemma options_for_doctors items docs :
  Forall2 doctor_record items docs →
  options_for items = (doctor_option <$> docs, Normal tt).
Proof.
  induction 1 as [|j d items docs Hjd _ IH]; [done|].
  cbn [options_for]. by rewrite (option_for_doctor j d), IH.
Qed.

Lemma rebuild_doctors items docs :
  docs ≠ [] → Forall2 doctor_record items docs →
  rebuild str_gt0 (JArr items) = (doctor_option <$> docs, Normal tt).
Proof.
  intros Hne Hrec. unfold rebuild, length_gt0.
  destruct Hrec as [|j d items docs Hjd Hrest]; [done|].
  rewrite bool_decide_true by (simpl; lia).
  by apply options_for_doctors, Forall2_cons.
Qed.

Lemma rebuild_empty_array :
  rebuild str_gt0 (JArr []) = ([no_doctors_option], Normal tt).
Proof. reflexivity. Qed.

Lemma page_ready_pick v w : page_ready w → page_ready (pick v w).
Proof.
  unfold page_ready, pick; simpl. rewrite lookup_alter_eq.
  by destruct (dom w !! "id_specialty").
Qed.

Lemma doctor_ref_present w :
  is_Some (dom w !! "id_doctor") → doctor_ref w = RElem "id_doctor".
Proof. intros [e He]. unfold doctor_ref. by rewrite He. Qed.

Lemma doctor_options_pick v w : doctor_options (pick v w) = doctor_options w.
Proof. unfold doctor_options. by rewrite pick_lookup_ne. Qed.

(** With the doctor control in the page, a non-empty selection whose lookup
    gives [data] leaves in the control what [rebuild] computes from [data]. *)
Lemma change_event_parsed v data w :
  page_ready w → is_Some (dom w !! "id_doctor") → truthy v = true →
  doctor_options (change_event str_gt0 v (Parsed data) w)
  = Some (fst (rebuild str_gt0 data)).
Proof.
  intros Hready Hdoc Hv.
  rewrite change_event_nonempty by done.
  rewrite doctor_ref_present, on_data_elem by done. cbn [fst].
  rewrite doctor_options_set, pick_lookup_ne by done.
  by destruct Hdoc as [e ->].
Qed.

(** ** The four outcomes of one specialty change *)

(** C1.  A non-empty selection whose lookup succeeds with a non-empty array of
    N doctor records leaves exactly N options in the doctor control, in the
    order of the array; the k-th option has the k-th doctor's id as value
    (as text, the way the DOM holds it) and the doctor's name as text. *)
Theorem doctor_list_rendered v items docs w :
  page_ready w → is_Some (dom w !! "id_doctor") →
  v ≠ "" → docs ≠ [] → Forall2 doctor_record items docs →
  ∃ opts,
    doctor_options (change_event str_gt0 v (Parsed (JArr items)) w) = Some opts
    ∧ length opts = length docs
    ∧ ∀ k d, docs !! k = Some d →
        opts !! k = Some (mkOption (Some (id_text (doc_id d))) (doc_name d) false).
Proof.
  intros Hready Hdoc Hv Hne Hrec.
  exists (doctor_option <$> docs). split; [|split].
  - rewrite change_event_parsed by (by rewrite ?truthy_nonempty).
    by rewrite (rebuild_doctors items docs).
  - apply length_fmap.
  - intros k d Hk. by rewrite list_lookup_fmap, Hk.
Qed.

(** C2.  The empty selection leaves exactly one option in the doctor control,
    the placeholder asking to choose a specialty first, and sends no
    request. *)
Theorem empty_selection_placeholder resp w :
  page_ready w → is_Some (dom w !! "id_doctor") →
  doctor_options (change_event str_gt0 "" resp w)
  = Some [mkOption (Some "") "Сначала выберите специальность" false]
  ∧ inflight (fst (select_specialty "" w)) = inflight w
  ∧ inflight (change_event str_gt0 "" resp w) = inflight w.
Proof.
  intros Hready Hdoc.
  rewrite change_event_empty by done.
  rewrite select_specialty_ready, on_specialty_change_ready by done.
  simpl truthy. cbv iota.
  rewrite doctor_ref_present, set_innerHTML_elem by done.
  rewrite parse_choose_specialty. cbn [fst].
  rewrite doctor_options_set, pick_lookup_ne by done.
  by destruct Hdoc as [e ->].
Qed.

(** C3, as the script has it.  A non-empty selection whose lookup succeeds
    with the empty array leaves exactly one option in the doctor control: the
    text saying that no doctor is available, with no value attribute and not
    disabled, so that the option can still be picked. *)
Theorem empty_array_placeholder v w :
  page_ready w → is_Some (dom w !! "id_doctor") → v ≠ "" →
  ∃ o,
    doctor_options (change_event str_gt0 v (Parsed (JArr [])) w) = Some [o]
    ∧ opt_text o = "Нет доступных врачей"
    ∧ opt_value o = None
    ∧ opt_disabled o = false
    ∧ selectable o = true.
Proof.
  intros Hready Hdoc Hv. exists no_doctors_option.
  rewrite change_event_parsed by (by rewrite ?truthy_nonempty).
  by rewrite rebuild_empty_array.
Qed.

(** C4.  A non-empty selection whose lookup fails, by a network error or by a
    body that is not JSON, leaves the doctor control as it was before the
    change. *)
Theorem failed_lookup_keeps_control v resp w :
  page_ready w → v ≠ "" → failed resp = true →
  dom (change_event str_gt0 v resp w) !! "id_doctor" = dom w !! "id_doctor".
Proof.
  intros Hready Hv Hfail.
  rewrite change_event_nonempty by (by rewrite ?truthy_nonempty).
  destruct resp; [| |done]; by rewrite pick_lookup_ne.
Qed.

(** ** Requests in flight *)

Lemma settle_parsed_at d l rq rest data :
  settle str_gt0 (length l) (Parsed data) (mkWorld d (l ++ rq :: rest))
  = on_data str_gt0 (req_doctorSelect rq) data (mkWorld d (l ++ rest)).
Proof.
  unfold settle; simpl.
  by rewrite list_lookup_middle, delete_middle.
Qed.

Lemma select_specialty_nonempty v w :
  page_ready w → truthy v = true →
  select_specialty v w
  = (mkWorld (dom (pick v w)) (inflight w ++ [doctors_request v w]), [Normal tt]).
Proof.
  intros Hready Hv.
  by rewrite select_specialty_ready, on_specialty_change_ready, Hv.
Qed.

Lemma page_ready_same_dom w w' : dom w' = dom w → page_ready w → page_ready w'.
Proof. unfold page_ready. by intros ->. Qed.

(** What one change, carried to its end, does to the world: beyond the pick
    of the user, at most the options of the doctor control are replaced. *)
Lemma change_event_shape v resp w :
  page_ready w →
  change_event str_gt0 v resp w = pick v w
  ∨ ∃ os, change_event str_gt0 v resp w = set_options "id_doctor" os (pick v w).
Proof.
  intros Hready. destruct (truthy v) eqn:Hv.
  - rewrite change_event_nonempty by done.
    destruct resp as [| |data]; [by left..|].
    unfold doctor_ref. destruct (dom w !! "id_doctor").
    + right. rewrite on_data_elem. by eexists.
    + by left.
  - destruct v; [|done].
    rewrite change_event_empty by done.
    unfold doctor_ref. destruct (dom w !! "id_doctor").
    + right. rewrite set_innerHTML_elem. by eexists.
    + by left.
Qed.

Lemma change_event_ready v resp w :
  page_ready w → page_ready (change_event str_gt0 v resp w).
Proof.
  intros Hready. pose proof (page_ready_pick v w Hready) as Hpick.
  destruct (change_event_shape v resp w Hready) as [->|[os ->]]; [done|].
  unfold page_ready in *. by rewrite set_options_lookup_ne.
Qed.

Lemma change_event_inflight v resp w :
  page_ready w → inflight (change_event str_gt0 v resp w) = inflight w.
Proof.
  intros Hready.
  by destruct (change_event_shape v resp w Hready) as [->|[os ->]].
Qed.

Lemma doctor_options_change_event v resp w :
  page_ready w →
  doctor_options (change_event str_gt0 v resp w)
  = options_after str_gt0 v resp (doctor_options w).
Proof.
  intros Hready. unfold options_after. destruct (truthy v) eqn:Hv.
  - rewrite change_event_nonempty by done.
    destruct resp as [| |data]; [by rewrite doctor_options_pick..|].
    unfold doctor_ref, doctor_options at 2.
    destruct (dom w !! "id_doctor") as [e|] eqn:He.
    + rewrite on_data_elem. cbn [fst].
      by rewrite doctor_options_set, pick_lookup_ne, He.
    + rewrite on_data_null. cbn [fst].
      by rewrite doctor_options_pick; unfold doctor_options; rewrite He.
  - destruct v; [|done].
    rewrite change_event_empty by done.
    unfold doctor_ref, doctor_options at 2.
    destruct (dom w !! "id_doctor") as [e|] eqn:He.
    + rewrite set_innerHTML_elem, parse_choose_specialty. cbn [fst].
      by rewrite doctor_options_set, pick_lookup_ne, He.
    + cbn [set_innerHTML fst].
      by rewrite doctor_options_pick; unfold doctor_options; rewrite He.
Qed.

(** ** Overlapping requests *)

(** C5.  The user picks A and then B; both requests are in flight, A's
    before B's.  B's response arrives first, A's last.  The specialty control
    shows B, and the doctor control holds what A's response alone gives: for
    a list of doctors, the options of A's doctors. *)
Theorem last_response_wins vA vB dataA dataB w :
  page_ready w → is_Some (dom w !! "id_doctor") → vA ≠ "" → vB ≠ "" →
  let n := length (inflight w) in
  let w2 := fst (select_specialty vB (fst (select_specialty vA w))) in
  let w3 := fst (settle str_gt0 (S n) (Parsed dataB) w2) in
  let w4 := fst (settle str_gt0 n (Parsed dataA) w3) in
  req_url <$> inflight w2 !! n = Some (doctors_url vA)
  ∧ req_url <$> inflight w2 !! S n = Some (doctors_url vB)
  ∧ el_value <$> dom w4 !! "id_specialty" = Some vB
  ∧ doctor_options w4 = doctor_options (change_event str_gt0 vA (Parsed dataA) w)
  ∧ ∀ items docs, dataA = JArr items → docs ≠ [] →
      Forall2 doctor_record items docs →
      doctor_options w4 = Some (doctor_option <$> docs).
Proof.
  intros Hready Hdoc HvA HvB n w2 w3 w4.
  apply truthy_nonempty in HvA, HvB.
  assert (page_ready (fst (select_specialty vA w))) as Hready1.
  { rewrite select_specialty_nonempty by done.
    by apply (page_ready_same_dom (pick vA w)), page_ready_pick. }
  assert (w2 = mkWorld (dom (pick vB (pick vA w)))
                 ((inflight w ++ [doctors_request vA w]) ++ [doctors_request vB w]))
    as Hw2.
  { unfold w2. rewrite (select_specialty_nonempty vB) by done.
    rewrite select_specialty_nonempty by done. cbn [fst inflight].
    do 3 f_equal.
    unfold doctors_request, doctor_ref, pick; simpl.
    by rewrite lookup_alter_ne. }
  assert (length (inflight w ++ [doctors_request vA w]) = S n) as Hlen
    by (rewrite length_app; simpl; unfold n; lia).
  assert (w3 = set_options "id_doctor" (fst (rebuild str_gt0 dataB))
                 (mkWorld (dom (pick vB (pick vA w)))
                    (inflight w ++ [doctors_request vA w]))) as Hw3.
  { unfold w3. rewrite Hw2, <- Hlen, settle_parsed_at.
    cbn [req_doctorSelect doctors_request].
    by rewrite doctor_ref_present, on_data_elem, app_nil_r. }
  assert (w4 = set_options "id_doctor" (fst (rebuild str_gt0 dataA))
                 (mkWorld (dom (pick vB (pick vA w))) (inflight w))) as Hw4.
  { unfold w4. rewrite Hw3. unfold set_options at 1, with_dom. cbn [dom inflight].
    unfold n. rewrite settle_parsed_at. cbn [req_doctorSelect doctors_request].
    rewrite doctor_ref_present, on_data_elem by done. cbn [fst].
    rewrite app_nil_r.
    apply (set_options_twice "id_doctor" _ _ (mkWorld _ _)). }
  assert (doctor_options w4 = Some (fst (rebuild str_gt0 dataA))) as Hopts.
  { rewrite Hw4, doctor_options_set. cbn [dom].
    rewrite !pick_lookup_ne by done. by destruct Hdoc as [e ->]. }
  split; [|split; [|split; [|split]]].
  - rewrite Hw2. cbn [inflight].
    rewrite lookup_app_l by (rewrite Hlen; unfold n; lia).
    by rewrite list_lookup_middle.
  - rewrite Hw2. cbn [inflight]. by rewrite list_lookup_middle.
  - rewrite Hw4, set_options_lookup_ne by done. unfold pick; simpl.
    rewrite !lookup_alter_eq. unfold page_ready in Hready.
    by destruct (dom w !! "id_specialty").
  - by rewrite Hopts, change_event_parsed.
  - intros items docs -> Hne Hrec.
    by rewrite Hopts, (rebuild_doctors items docs).
Qed.

(** ** Nothing kept between changes *)

(** C7.  A non-empty selection sends exactly one request, for the URL of that
    selection, whatever happened before: also right after the same selection
    was carried to its end with any response.  When the lookup succeeds, the
    options the doctor control ends with are computed from the response
    alone; two pages that held different options end with the same ones. *)
Theorem fresh_request_and_full_rebuild v w :
  page_ready w → v ≠ "" →
  inflight (fst (select_specialty v w)) = inflight w ++ [doctors_request v w]
  ∧ (∀ resp,
       let w1 := change_event str_gt0 v resp w in
       inflight (fst (select_specialty v w1)) = inflight w1 ++ [doctors_request v w1])
  ∧ (∀ data, is_Some (dom w !! "id_doctor") →
       doctor_options (change_event str_gt0 v (Parsed data) w)
       = Some (fst (rebuild str_gt0 data)))
  ∧ (∀ data w', page_ready w' →
       is_Some (dom w !! "id_doctor") → is_Some (dom w' !! "id_doctor") →
       doctor_options (change_event str_gt0 v (Parsed data) w)
       = doctor_options (change_event str_gt0 v (Parsed data) w')).
Proof.
  intros Hready Hv. apply truthy_nonempty in Hv.
  split; [|split; [|split]].
  - by rewrite select_specialty_nonempty.
  - intros resp w1.
    by rewrite select_specialty_nonempty by (by try apply change_event_ready).
  - intros data Hdoc. by apply change_event_parsed.
  - intros data w' Hready' Hdoc Hdoc'. by rewrite !change_event_parsed.
Qed.

(** C8.  Carrying the same selection to its end twice with the same response
    leaves the same options in the doctor control as doing it once. *)
Theorem change_event_idempotent v resp w :
  page_ready w →
  doctor_options (change_event str_gt0 v resp (change_event str_gt0 v resp w))
  = doctor_options (change_event str_gt0 v resp w).
Proof.
  intros Hready.
  rewrite !doctor_options_change_event by (by try apply change_event_ready).
  unfold options_after.
  destruct (truthy v), resp, (doctor_options w); done.
Qed.

(** C9.  Against the page as the user's pick left it, one change carried to
    its end alters nothing outside the doctor control: every other element
    is the same, the doctor control is there or not as before and keeps its
    listeners, and the requests in flight are those from before. *)
Theorem change_event_frame v resp w :
  page_ready w →
  (∀ id, id ≠ "id_doctor" →
     dom (change_event str_gt0 v resp w) !! id = dom (pick v w) !! id)
  ∧ el_listeners <$> dom (change_event str_gt0 v resp w) !! "id_doctor"
    = el_listeners <$> dom w !! "id_doctor"
  ∧ inflight (change_event str_gt0 v resp w) = inflight w.
Proof.
  intros Hready.
  destruct (change_event_shape v resp w Hready) as [->|[os ->]].
  - split; [done|]. split; [|done]. by rewrite pick_lookup_ne.
  - split; [|split; [|done]].
    + intros id Hid. by apply set_options_lookup_ne.
    + rewrite set_options_lookup, pick_lookup_ne by done.
      by destruct (dom w !! "id_doctor").
Qed.

End Properties.

(** ** Items of any shape *)

Lemma join_with_is_Some (f : json → option string) items :
  Forall (λ x, is_Some (f x) ↔ printable x = true) items →
  is_Some (join_with f items) ↔ forallb printable items = true.
Proof.
  induction 1 as [|x rest Hx _ IH]; [by split; eauto|].
  cbn [join_with forallb]. fold (join_with f).
  rewrite andb_true_iff, <- IH, <- Hx.
  assert (is_Some (match x with JNull => Some "" | _ => f x end) ↔ is_Some (f x))
    as Hitem.
  { destruct x; try done. rewrite Hx. by split; eauto. }
  destruct rest as [|y rest].
  - rewrite Hitem. split; [by split; eauto | by intros []].
  - rewrite <- Hitem.
    destruct (match x with JNull => Some "" | _ => f x end) as [s|],
      (join_with f (y :: rest)) as [r|];
      split; (try by intros [??]; eauto); try by intros [[??] [??]].
Qed.

(** [to_string] gives a text exactly for the printable values. *)
Lemma to_string_printable v : is_Some (to_string v) ↔ printable v = true.
Proof.
  induction v as [|b|repr|s|items IH|props _] using json_nested_ind;
    try (by split; eauto).
  - cbn [to_string printable]. by apply join_with_is_Some.
  - cbn [to_string printable].
    destruct (own_property "toString" props); split; eauto; try done.
Qed.

Lemma to_string_normal j :
  match to_string j with Some _ => true | None => false end = printable j.
Proof.
  pose proof (to_string_printable j) as H.
  destruct (to_string j) as [s|], (printable j); try done.
  - symmetry. apply H. by eexists.
  - by assert (is_Some (@None string)) as [??] by (by apply H).
Qed.

Lemma to_DOMString_normal v :
  is_normal (to_DOMString v)
  = match v with Undefined => true | Val j => printable j end.
Proof.
  destruct v as [|j]; [done|]. simpl.
  rewrite <- to_string_normal. by destruct (to_string j).
Qed.

Lemma to_textContent_normal v :
  is_normal (to_textContent v)
  = match v with Undefined => true | Val j => printable j end.
Proof.
  destruct v as [|j]; [done|].
  rewrite <- to_string_normal. destruct j; try done; simpl.
  - by destruct (join_with to_string items).
  - by destruct (own_property "toString" props).
Qed.

(** The loop body ends normally exactly on the showable items. *)
Lemma option_for_normal j : is_normal (option_for j) = showable j.
Proof.
  destruct j as [|b|repr|s|items|props]; try done.
  unfold option_for, showable, field_printable, get_field.
  pose proof (to_DOMString_normal
    (match own_property "id" props with Some x => Val x | None => Undefined end))
    as Hid.
  pose proof (to_textContent_normal
    (match own_property "name" props with Some x => Val x | None => Undefined end))
    as Hname.
  destruct (to_DOMString _) as [value|]; simpl in Hid;
    destruct (to_textContent _) as [text|]; simpl in Hname;
    destruct (own_property "id" props), (own_property "name" props);
    simpl; rewrite <- ?Hid, <- ?Hname; done.
Qed.

Lemma options_for_normal items :
  is_normal (snd (options_for items)) = forallb showable items.
Proof.
  induction items as [|x rest IH]; [done|].
  cbn [options_for forallb]. rewrite <- option_for_normal, <- IH.
  destruct (option_for x); [|done].
  by destruct (options_for rest).
Qed.

Lemma options_for_showable items :
  forallb showable items = true →
  Forall2 (λ j o, option_for j = Normal o) items (fst (options_for items)).
Proof.
  induction items as [|x rest IH]; [constructor|].
  cbn [options_for forallb]. rewrite andb_true_iff, <- option_for_normal.
  intros [Hx Hrest]. destruct (option_for x) as [o|] eqn:Ho; [|done].
  specialize (IH Hrest). destruct (options_for rest). by constructor.
Qed.

(** A record without [id] gets the value ["undefined"], one without [name]
    gets the empty text. *)
Lemma option_for_missing_id props o :
  option_for (JObj props) = Normal o → own_property "id" props = None →
  opt_value o = Some "undefined".
Proof.
  unfold option_for, get_field. intros Ho Hid. rewrite Hid in Ho. simpl in Ho.
  destruct (to_textContent _); [|done]. by injection Ho as <-.
Qed.

Lemma option_for_missing_name props o :
  option_for (JObj props) = Normal o → own_property "name" props = None →
  opt_text o = "".
Proof.
  unfold option_for, get_field. intros Ho Hname. rewrite Hname in Ho.
  destruct (to_DOMString _); [|done]. simpl in Ho. by injection Ho as <-.
Qed.

Section Setup_and_items.

Variable str_gt0 : string → bool.

(** C10, as the script has it.  For a response that is an array, the
    callback ends without an exception exactly when every item is showable:
    not [null], and with printable [id] and [name] where present.  Then a
    non-empty array leaves one option per item, the k-th made from the k-th
    item; a record without [id] gets the value ["undefined"], one without
    [name] the empty text.  Otherwise the control keeps the options made
    before the first item that throws. *)
Theorem array_items_processed items w :
  is_Some (dom w !! "id_doctor") →
  let r := on_data str_gt0 (RElem "id_doctor") (JArr items) w in
  is_normal (snd r) = forallb showable items
  ∧ (items ≠ [] → doctor_options (fst r) = Some (fst (options_for items)))
  ∧ (items ≠ [] → forallb showable items = true →
     ∃ opts, doctor_options (fst r) = Some opts
       ∧ length opts = length items
       ∧ Forall2 (λ j o, option_for j = Normal o) items opts
       ∧ ∀ k props o, items !! k = Some (JObj props) → opts !! k = Some o →
           (own_property "id" props = None → opt_value o = Some "undefined")
           ∧ (own_property "name" props = None → opt_text o = "")).
Proof.
  intros [e He] r. unfold r. rewrite on_data_elem. cbn [fst snd].
  rewrite doctor_options_set, He. unfold rebuild, length_gt0.
  destruct items as [|x rest].
  - by split.
  - rewrite bool_decide_true by (simpl; lia).
    split; [apply options_for_normal|]. split; [done|].
    intros _ Hshow. eexists. split; [done|].
    pose proof (options_for_showable _ Hshow) as Hall.
    split; [symmetry; by eapply Forall2_length|]. split; [done|].
    intros k props o Hk Ho.
    pose proof (Forall2_lookup_lr _ _ _ _ _ _ Hall Hk Ho) as Hfor.
    simpl in Hfor. split; intros Hmiss.
    + by apply (option_for_missing_id props).
    + by apply (option_for_missing_name props).
Qed.

(** ** Setting up *)

Lemma on_DOMContentLoaded_run w :
  on_DOMContentLoaded w
  = match dom w !! "id_specialty" with
    | None => (w, Throw TypeError)
    | Some _ =>
        let w1 := with_dom (alter (add_listener OnSpecialtyChange) "id_specialty") w in
        match dom w !! "id_date" with
        | Some _ => (with_dom (alter (add_listener OnDateChange) "id_date") w1, Normal tt)
        | None => (w1, Normal tt)
        end
    end.
Proof.
  unfold on_DOMContentLoaded, mbind, M_bind, getElementById.
  destruct (dom w !! "id_specialty"); [|done].
  cbn [addEventListener with_dom dom].
  rewrite lookup_alter_ne by done.
  by destruct (dom w !! "id_date").
Qed.

Lemma setup_lookup w id :
  id ≠ "id_specialty" → id ≠ "id_date" →
  dom (fst (on_DOMContentLoaded w)) !! id = dom w !! id.
Proof.
  intros Hs Hd. rewrite on_DOMContentLoaded_run.
  destruct (dom w !! "id_specialty"); [|done].
  destruct (dom w !! "id_date"); cbn [fst with_dom dom];
    by rewrite ?lookup_alter_ne.
Qed.

Lemma setup_inflight w : inflight (fst (on_DOMContentLoaded w)) = inflight w.
Proof.
  rewrite on_DOMContentLoaded_run.
  destruct (dom w !! "id_specialty"); [|done].
  by destruct (dom w !! "id_date").
Qed.

(** Setting up a page whose specialty control has no listener yet makes the
    page ready. *)
Lemma setup_ready w :
  el_listeners <$> dom w !! "id_specialty" = Some [] →
  page_ready (fst (on_DOMContentLoaded w)).
Proof.
  intros Hfresh. rewrite on_DOMContentLoaded_run. unfold page_ready.
  destruct (dom w !! "id_specialty") as [e|] eqn:He; [|done].
  injection Hfresh as Hl.
  destruct (dom w !! "id_date"); cbn [fst with_dom dom];
    rewrite ?lookup_alter_ne by done;
    rewrite lookup_alter_eq, He; simpl; by rewrite Hl.
Qed.

(** C6, as the script has it.  Setting up fails exactly when the specialty
    control is missing, and then attaches nothing; whether the date control
    or the doctor control is there does not matter to it.  A missing doctor
    control shows only at the first change: the listener throws on the empty
    selection, and on another selection the request goes out and the callback
    of its response throws. *)
Theorem setup_fails_only_without_specialty w :
  snd (on_DOMContentLoaded w)
  = match dom w !! "id_specialty" with
    | Some _ => Normal tt
    | None => Throw TypeError
    end
  ∧ (dom w !! "id_specialty" = None → fst (on_DOMContentLoaded w) = w)
  ∧ (dom w !! "id_doctor" = None →
     el_listeners <$> dom w !! "id_specialty" = Some [] →
     let w1 := fst (on_DOMContentLoaded w) in
     snd (select_specialty "" w1) = [Throw TypeError]
     ∧ ∀ v data, v ≠ "" →
         snd (select_specialty v w1) = [Normal tt]
         ∧ snd (settle str_gt0 (length (inflight w1)) (Parsed data)
                  (fst (select_specialty v w1)))
           = Throw TypeError).
Proof.
  split; [|split].
  - rewrite on_DOMContentLoaded_run.
    destruct (dom w !! "id_specialty"); [|done].
    by destruct (dom w !! "id_date").
  - intros Hs. by rewrite on_DOMContentLoaded_run, Hs.
  - intros Hdoc Hfresh w1.
    pose proof (setup_ready w Hfresh) as Hready. fold w1 in Hready.
    assert (doctor_ref w1 = RNull) as Href.
    { unfold doctor_ref, w1. by rewrite setup_lookup, Hdoc. }
    split.
    + rewrite select_specialty_ready, on_specialty_change_ready by done.
      by rewrite Href.
    + intros v data Hv. apply truthy_nonempty in Hv.
      rewrite select_specialty_nonempty by done. split; [done|].
      cbn [fst]. unfold settle. cbn [inflight].
      rewrite list_lookup_middle by done.
      unfold doctors_request. by rewrite Href.
Qed.

End Setup_and_items.

(** * The theorems at concrete pages *)

Lemma booking_page_ready : page_ready booking_page.
Proof. vm_compute. reflexivity. Qed.

Lemma booking_page_has_doctor : is_Some (dom booking_page !! "id_doctor").
Proof. eexists. vm_compute. reflexivity. Qed.

Lemma example_items_are_doctors : Forall2 doctor_record example_items example_doctors.
Proof. repeat constructor. Qed.

(** The example of the specification: specialty 3, doctors 7 and 9. *)
Example specialty_3_two_doctors :
  doctor_options
    (change_event no_string_gt0 "3" (Parsed (JArr example_items)) booking_page)
  = Some [mkOption (Some "7") "Dr. Ivanova" false;
          mkOption (Some "9") "Dr. Petrov" false].
Proof. vm_compute. reflexivity. Qed.

(** A [null] between two records: the first record is shown, the callback
    throws at the [null], the second record is never reached. *)
Example null_item_truncates :
  let r := on_data no_string_gt0 (RElem "id_doctor")
             (JArr [JObj [("id", JNum "7"); ("name", JStr "Dr. Ivanova")];
                    JNull;
                    JObj [("id", JNum "9"); ("name", JStr "Dr. Petrov")]])
             booking_page in
  snd r = Throw TypeError
  ∧ doctor_options (fst r) = Some [mkOption (Some "7") "Dr. Ivanova" false].
Proof. vm_compute. split; reflexivity. Qed.

(** C1 on the example of the specification. *)
Lemma doctor_list_rendered_witness :
  ∃ opts,
    doctor_options
      (change_event no_string_gt0 "3" (Parsed (JArr example_items)) booking_page)
    = Some opts
    ∧ length opts = length example_doctors
    ∧ ∀ k d, example_doctors !! k = Some d →
        opts !! k = Some (mkOption (Some (id_text (doc_id d))) (doc_name d) false).
Proof.
  apply (doctor_list_rendered no_string_gt0 "3" example_items example_doctors
           booking_page).
  - vm_compute. reflexivity.
  - eexists. vm_compute. reflexivity.
  - discriminate.
  - discriminate.
  - repeat constructor.
Defined.

(** C2 on the booking page. *)
Lemma empty_selection_placeholder_witness :
  doctor_options (change_event no_string_gt0 "" NetworkError booking_page)
  = Some [mkOption (Some "") "Сначала выберите специальность" false]
  ∧ inflight (fst (select_specialty "" booking_page)) = inflight booking_page
  ∧ inflight (change_event no_string_gt0 "" NetworkError booking_page)
    = inflight booking_page.
Proof.
  apply (empty_selection_placeholder no_string_gt0 NetworkError booking_page).
  - vm_compute. reflexivity.
  - eexists. vm_compute. reflexivity.
Defined.

(** C3 as stated fails: on the booking page the single option left by an
    empty array is not disabled, so it is selectable. *)
Lemma no_doctors_option_counterexample :
  ¬ (∃ o,
       doctor_options
         (change_event no_string_gt0 "3" (Parsed (JArr [])) booking_page)
       = Some [o]
       ∧ opt_text o = "Нет доступных врачей"
       ∧ selectable o = false).
Proof.
  intros (o & Ho & _ & Hsel).
  vm_compute in Ho. injection Ho as <-. discriminate Hsel.
Qed.

(** C3, amended, on the booking page. *)
Lemma empty_array_placeholder_witness :
  ∃ o,
    doctor_options
      (change_event no_string_gt0 "3" (Parsed (JArr [])) booking_page)
    = Some [o]
    ∧ opt_text o = "Нет доступных врачей"
    ∧ opt_value o = None
    ∧ opt_disabled o = false
    ∧ selectable o = true.
Proof.
  apply (empty_array_placeholder no_string_gt0 "3" booking_page).
  - vm_compute. reflexivity.
  - eexists. vm_compute. reflexivity.
  - discriminate.
Defined.

(** C4 on the booking page, for a body that is not JSON. *)
Lemma failed_lookup_keeps_control_witness :
  dom (change_event no_string_gt0 "3" ParseError booking_page) !! "id_doctor"
  = dom booking_page !! "id_doctor".
Proof.
  apply (failed_lookup_keeps_control no_string_gt0 "3" ParseError booking_page).
  - vm_compute. reflexivity.
  - discriminate.
  - reflexivity.
Defined.

(** C5 on the booking page: specialty 3, then 5; the empty answer for 5
    arrives first, the two doctors of 3 arrive last and stay. *)
Lemma last_response_wins_witness :
  let w2 := fst (select_specialty "5" (fst (select_specialty "3" booking_page))) in
  let w3 := fst (settle no_string_gt0 1 (Parsed (JArr [])) w2) in
  let w4 := fst (settle no_string_gt0 0 (Parsed (JArr example_items)) w3) in
  el_value <$> dom w4 !! "id_specialty" = Some "5"
  ∧ doctor_options w4 = Some (doctor_option <$> example_doctors).
Proof.
  destruct (last_response_wins no_string_gt0 "3" "5" (JArr example_items)
              (JArr []) booking_page)
    as (_ & _ & Hvalue & _ & Hdoctors).
  - vm_compute. reflexivity.
  - eexists. vm_compute. reflexivity.
  - discriminate.
  - discriminate.
  - split; [exact Hvalue|].
    apply (Hdoctors example_items example_doctors); [reflexivity|discriminate|].
    repeat constructor.
Defined.

(** C6 as stated fails: a page without the doctor control is set up without
    an exception. *)
Lemma missing_doctor_counterexample :
  ¬ (dom specialty_only_page !! "id_specialty" = None
     ∨ dom specialty_only_page !! "id_doctor" = None
     → is_normal (snd (on_DOMContentLoaded specialty_only_page)) = false).
Proof.
  intros H.
  assert (dom specialty_only_page !! "id_doctor" = None) as Hdoc
    by (vm_compute; reflexivity).
  specialize (H (or_intror Hdoc)). vm_compute in H. discriminate H.
Qed.

(** C6, amended, on that page: set up without an exception, and the first
    empty selection throws in the listener. *)
Lemma setup_fails_only_without_specialty_witness :
  snd (on_DOMContentLoaded specialty_only_page) = Normal tt
  ∧ snd (select_specialty "" (fst (on_DOMContentLoaded specialty_only_page)))
    = [Throw TypeError].
Proof.
  destruct (setup_fails_only_without_specialty no_string_gt0 specialty_only_page)
    as (Hsetup & _ & Hlater).
  split; [exact Hsetup|].
  apply Hlater; vm_compute; reflexivity.
Defined.

(** C7 on the booking page. *)
Lemma fresh_request_and_full_rebuild_witness :
  inflight (fst (select_specialty "3" booking_page))
  = inflight booking_page ++ [doctors_request "3" booking_page]
  ∧ doctor_options
      (change_event no_string_gt0 "3" (Parsed (JArr example_items)) booking_page)
    = Some (fst (rebuild no_string_gt0 (JArr example_items))).
Proof.
  destruct (fresh_request_and_full_rebuild no_string_gt0 "3" booking_page)
    as (Hone & _ & Hrebuild & _).
  - vm_compute. reflexivity.
  - discriminate.
  - split; [exact Hone|].
    apply Hrebuild. eexists. vm_compute. reflexivity.
Defined.

(** C8 on the booking page. *)
Lemma change_event_idempotent_witness :
  doctor_options
    (change_event no_string_gt0 "3" (Parsed (JArr example_items))
       (change_event no_string_gt0 "3" (Parsed (JArr example_items)) booking_page))
  = doctor_options
      (change_event no_string_gt0 "3" (Parsed (JArr example_items)) booking_page).
Proof.
  apply (change_event_idempotent no_string_gt0 "3" (Parsed (JArr example_items))
           booking_page).
  vm_compute. reflexivity.
Defined.

(** C9 on the booking page. *)
Lemma change_event_frame_witness :
  (∀ id, id ≠ "id_doctor" →
     dom (change_event no_string_gt0 "3" (Parsed (JArr example_items)) booking_page) !! id
     = dom (pick "3" booking_page) !! id)
  ∧ el_listeners
      <$> dom (change_event no_string_gt0 "3" (Parsed (JArr example_items)) booking_page)
          !! "id_doctor"
    = el_listeners <$> dom booking_page !! "id_doctor"
  ∧ inflight (change_event no_string_gt0 "3" (Parsed (JArr example_items)) booking_page)
    = inflight booking_page.
Proof.
  apply (change_event_frame no_string_gt0 "3" (Parsed (JArr example_items))
           booking_page).
  vm_compute. reflexivity.
Defined.

(** C10 as stated fails: an array holding [null] makes the callback throw and
    leaves no option for that item. *)
Lemma null_item_counterexample :
  ¬ (let r := on_data no_string_gt0 (RElem "id_doctor") (JArr [JNull]) booking_page in
     is_normal (snd r) = true
     ∧ ∃ opts, doctor_options (fst r) = Some opts ∧ length opts = 1).
Proof.
  intros [Hnormal _]. vm_compute in Hnormal. discriminate Hnormal.
Qed.

(** C10, amended, on the booking page. *)
Lemma array_items_processed_witness :
  let r := on_data no_string_gt0 (RElem "id_doctor") (JArr odd_items) booking_page in
  is_normal (snd r) = true
  ∧ ∃ opts, doctor_options (fst r) = Some opts
      ∧ length opts = 2
      ∧ Forall2 (λ j o, option_for j = Normal o) odd_items opts
      ∧ ∀ k props o, odd_items !! k = Some (JObj props) → opts !! k = Some o →
          (own_property "id" props = None → opt_value o = Some "undefined")
          ∧ (own_property "name" props = None → opt_text o = "").
Proof.
  destruct (array_items_processed no_string_gt0 odd_items booking_page)
    as (Hnormal & _ & Hopts).
  - eexists. vm_compute. reflexivity.
  - split; [exact Hnormal|].
    apply Hopts; [discriminate|reflexivity].
Defined.

(** * Further properties of the script *)

(** ** Setting up, in full *)

Lemma fmap_lookup_alter_same {A} (g : Element → A) (f : Element → Element)
    (m : gmap string Element) id id' :
  (∀ e, g (f e) = g e) →
  g <$> alter f id m !! id' = g <$> m !! id'.
Proof.
  intros Hg. destruct (decide (id = id')) as [->|Hne].
  - rewrite lookup_alter_eq. destruct (m !! id'); simpl; by rewrite ?Hg.
  - by rewrite lookup_alter_ne.
Qed.

(** X1.  On a page that has the specialty control, the [DOMContentLoaded]
    handler ends normally; it appends the listener of the script to the
    listeners of the specialty control and the empty listener to those of
    the date control, and changes nothing else: no value, no option, no
    other element, no request.  When the two controls had no listener, the
    page is set up. *)
Theorem setup_attaches_listeners w :
  is_Some (dom w !! "id_specialty") →
  let w1 := fst (on_DOMContentLoaded w) in
  snd (on_DOMContentLoaded w) = Normal tt
  ∧ el_listeners <$> dom w1 !! "id_specialty"
    = (λ e, el_listeners e ++ [OnSpecialtyChange]) <$> dom w !! "id_specialty"
  ∧ el_listeners <$> dom w1 !! "id_date"
    = (λ e, el_listeners e ++ [OnDateChange]) <$> dom w !! "id_date"
  ∧ (∀ id, el_value <$> dom w1 !! id = el_value <$> dom w !! id
           ∧ el_options <$> dom w1 !! id = el_options <$> dom w !! id
           ∧ (id ≠ "id_specialty" → id ≠ "id_date" → dom w1 !! id = dom w !! id))
  ∧ inflight w1 = inflight w
  ∧ (el_listeners <$> dom w !! "id_specialty" = Some [] →
     el_listeners <$> dom w !! "id_date" = None
     ∨ el_listeners <$> dom w !! "id_date" = Some [] →
     page_set_up w1).
Proof.
  intros [e He] w1.
  assert (w1 = match dom w !! "id_date" with
               | Some _ =>
                   with_dom (alter (add_listener OnDateChange) "id_date")
                     (with_dom (alter (add_listener OnSpecialtyChange) "id_specialty") w)
               | None => with_dom (alter (add_listener OnSpecialtyChange) "id_specialty") w
               end
          ∧ snd (on_DOMContentLoaded w) = Normal tt) as [Hw1 Hnormal].
  { unfold w1. rewrite on_DOMContentLoaded_run, He.
    by destruct (dom w !! "id_date"). }
  assert (el_listeners <$> dom w1 !! "id_specialty"
          = (λ e, el_listeners e ++ [OnSpecialtyChange]) <$> dom w !! "id_specialty")
    as Hspec.
  { rewrite Hw1. destruct (dom w !! "id_date"); cbn [with_dom dom];
      rewrite ?lookup_alter_ne by done; rewrite lookup_alter_eq, He; done. }
  assert (el_listeners <$> dom w1 !! "id_date"
          = (λ e, el_listeners e ++ [OnDateChange]) <$> dom w !! "id_date")
    as Hdate.
  { rewrite Hw1. destruct (dom w !! "id_date") as [ed|] eqn:Hd; cbn [with_dom dom].
    - by rewrite lookup_alter_eq, lookup_alter_ne, Hd.
    - by rewrite lookup_alter_ne, Hd. }
  split; [done|]. split; [done|]. split; [done|]. split; [|split].
  - intros id. rewrite Hw1.
    destruct (dom w !! "id_date"); cbn [with_dom dom];
      rewrite ?(fmap_lookup_alter_same el_value), ?(fmap_lookup_alter_same el_options)
        by done;
      (split; [done|]); (split; [done|]); intros Hs Hd;
      by rewrite ?lookup_alter_ne.
  - rewrite Hw1. by destruct (dom w !! "id_date").
  - intros Hfresh Hdfresh. split.
    + unfold page_ready. rewrite Hspec.
      destruct (dom w !! "id_specialty") as [e'|]; [|done].
      simpl in *. injection Hfresh as Hl. by rewrite Hl.
    + rewrite Hdate.
      destruct (dom w !! "id_date") as [ed|]; [|by left].
      destruct Hdfresh as [?|Hd]; [done|].
      simpl in *. injection Hd as Hl. right. by rewrite Hl.
Qed.

(** ** The date control *)

Lemma select_date_run d w :
  page_set_up w →
  select_date d w
  = (pick_date d w,
     match dom w !! "id_date" with Some _ => [Normal tt] | None => [] end).
Proof.
  intros [_ Hdate]. unfold select_date, dispatch_change, pick_date.
  cbn [with_dom dom]. rewrite lookup_alter_eq.
  destruct (dom w !! "id_date") as [e|]; [|done].
  destruct Hdate as [?|Hl]; [done|].
  simpl in *. injection Hl as ->. done.
Qed.

(** X2.  On a page that is set up, a change of the date control runs the
    empty listener and nothing more: no listener throws, no request goes
    out, and apart from the value the user picked in the date control the
    document is what it was. *)
Theorem date_change_does_nothing d w :
  page_set_up w →
  Forall (λ c, c = Normal tt) (snd (select_date d w))
  ∧ inflight (fst (select_date d w)) = inflight w
  ∧ doctor_options (fst (select_date d w)) = doctor_options w
  ∧ (∀ id, id ≠ "id_date" → dom (fst (select_date d w)) !! id = dom w !! id)
  ∧ el_options <$> dom (fst (select_date d w)) !! "id_date"
    = el_options <$> dom w !! "id_date"
  ∧ el_listeners <$> dom (fst (select_date d w)) !! "id_date"
    = el_listeners <$> dom w !! "id_date".
Proof.
  intros Hset. rewrite select_date_run by done. cbn [fst snd].
  split; [by destruct (dom w !! "id_date"); repeat constructor|].
  split; [done|].
  unfold doctor_options, pick_date. cbn [with_dom dom].
  rewrite !(fmap_lookup_alter_same _ (with_value d)) by done.
  split; [done|]. split; [|done].
  intros id Hid. by rewrite lookup_alter_ne.
Qed.

(** ** The request *)

Lemma strip_prefix_app p s : strip_prefix p (p +:+ s) = Some s.
Proof.
  induction p as [|a p IH]; [done|].
  simpl. by rewrite decide_True.
Qed.

Lemma string_app_inj p s s' : p +:+ s = p +:+ s' → s = s'.
Proof.
  intros Heq.
  assert (strip_prefix p (p +:+ s) = strip_prefix p (p +:+ s')) as H
    by (by rewrite Heq).
  rewrite !strip_prefix_app in H. by injection H.
Qed.

(** X5.  The request of a non-empty selection is the last one in flight, and
    its URL is the fixed path followed by the selected value as it is: taking
    the path off gives the value back, so two selections have the same URL
    only when they are the same. *)
Theorem request_url_carries_selection v w :
  page_ready w → v ≠ "" →
  (∃ rq, last (inflight (fst (select_specialty v w))) = Some rq
     ∧ req_url rq = "/get-doctors/?specialty_id=" +:+ v
     ∧ strip_prefix "/get-doctors/?specialty_id=" (req_url rq) = Some v)
  ∧ ∀ v', doctors_url v = doctors_url v' → v = v'.
Proof.
  intros Hready Hv. apply truthy_nonempty in Hv. split.
  - rewrite select_specialty_nonempty by done. cbn [fst inflight].
    exists (doctors_request v w). rewrite last_snoc.
    split; [done|]. split; [done|]. apply strip_prefix_app.
  - intros v'. apply string_app_inj.
Qed.

(** ** Responses the loop cannot go through *)

Lemma option_for_exn x e : option_for x = Throw e → e = TypeError.
Proof.
  unfold option_for, get_field, to_DOMString, to_textContent.
  repeat case_match; congruence.
Qed.

Lemma option_for_throw x : showable x = false → option_for x = Throw TypeError.
Proof.
  intros Hx. rewrite <- option_for_normal in Hx.
  destruct (option_for x) as [o|e] eqn:Ho; [done|].
  by rewrite (option_for_exn x e Ho).
Qed.

Lemma options_for_shown_prefix items :
  Forall2 (λ j o, option_for j = Normal o) (shown_prefix items)
    (fst (options_for items))
  ∧ snd (options_for items)
    = if forallb showable items then Normal tt else Throw TypeError.
Proof.
  induction items as [|x rest [IHopts IHend]]; [by split; [constructor|]|].
  cbn [shown_prefix options_for forallb].
  destruct (showable x) eqn:Hx.
  - rewrite <- option_for_normal in Hx.
    destruct (option_for x) as [o|] eqn:Ho; [|done].
    destruct (options_for rest) as [os c]. split; [by constructor|done].
  - rewrite option_for_throw by done. split; [constructor|done].
Qed.

Lemma shown_prefix_shorter items :
  forallb showable items = false → length (shown_prefix items) < length items.
Proof.
  induction items as [|x rest IH]; [done|].
  cbn [shown_prefix forallb length].
  destruct (showable x); simpl; [|lia].
  intros Hrest. specialize (IH Hrest). lia.
Qed.

Lemma option_for_fieldless j : fieldless j = true → option_for j = Normal blank_option.
Proof.
  destruct j as [| | | | |props]; try done.
  unfold fieldless, option_for, get_field.
  by destruct (own_property "id" props), (own_property "name" props).
Qed.

Lemma options_for_fieldless items :
  Forall (λ j, fieldless j = true) items →
  options_for items = (replicate (length items) blank_option, Normal tt).
Proof.
  induction 1 as [|x rest Hx _ IH]; [done|].
  cbn [options_for]. by rewrite option_for_fieldless, IH.
Qed.

Section Odd_responses.

Variable str_gt0 : string → bool.

(** X4.  When some item of the array cannot be shown, the callback throws a
    [TypeError] at the first such item: the control, emptied before the loop,
    holds one option for each item in front of it, in order, and nothing for
    that item or those behind it. *)
Theorem first_bad_item_stops_loop items w :
  is_Some (dom w !! "id_doctor") → forallb showable items = false →
  let r := on_data str_gt0 (RElem "id_doctor") (JArr items) w in
  snd r = Throw TypeError
  ∧ ∃ opts, doctor_options (fst r) = Some opts
      ∧ Forall2 (λ j o, option_for j = Normal o) (shown_prefix items) opts
      ∧ length opts < length items.
Proof.
  intros [e He] Hbad r. unfold r. rewrite on_data_elem. cbn [fst snd].
  rewrite doctor_options_set, He. unfold rebuild, length_gt0.
  destruct items as [|x rest]; [done|].
  rewrite bool_decide_true by (simpl; lia).
  destruct (options_for_shown_prefix (x :: rest)) as [Hopts Hend].
  rewrite Hbad in Hend. split; [done|].
  eexists. split; [done|]. split; [done|].
  rewrite <- (Forall2_length _ _ _ Hopts). by apply shown_prefix_shorter.
Qed.

(** X10.  A non-empty array whose items have neither [id] nor [name]
    (strings, numbers, booleans, arrays, objects without the two keys) goes
    through without an exception and leaves one option per item, each with
    the value ["undefined"] and no text. *)
Theorem fieldless_items_give_blank_options items w :
  is_Some (dom w !! "id_doctor") → items ≠ [] →
  Forall (λ j, fieldless j = true) items →
  let r := on_data str_gt0 (RElem "id_doctor") (JArr items) w in
  snd r = Normal tt
  ∧ doctor_options (fst r)
    = Some (replicate (length items) (mkOption (Some "undefined") "" false)).
Proof.
  intros [e He] Hne Hall r. unfold r. rewrite on_data_elem. cbn [fst snd].
  rewrite doctor_options_set, He. unfold rebuild, length_gt0.
  destruct items as [|x rest]; [done|].
  rewrite bool_decide_true by (simpl; lia).
  by rewrite options_for_fieldless.
Qed.

(** X3.  A response that parsed but is not an array never yields a doctor:
    the control ends either empty, with a [TypeError] thrown, or with the
    single option saying that no doctor is available.  [null] and a
    non-empty string end the first way; a boolean, a number, the empty
    string and an object without an own [length] end the second way. *)
Theorem non_array_response data w :
  is_Some (dom w !! "id_doctor") → is_array data = false →
  let r := on_data str_gt0 (RElem "id_doctor") data w in
  let thrown := snd r = Throw TypeError ∧ doctor_options (fst r) = Some [] in
  let none_available :=
    snd r = Normal tt
    ∧ doctor_options (fst r) = Some [mkOption None "Нет доступных врачей" false] in
  (thrown ∨ none_available)
  ∧ match data with
    | JNull => thrown
    | JBool _ | JNum _ => none_available
    | JStr s => if truthy s then thrown else none_available
    | JObj props =>
        match own_property "length" props with
        | None => none_available
        | Some _ => True
        end
    | JArr _ => True
    end.
Proof.
  intros [e He] Harr r. unfold r. rewrite on_data_elem. cbn [fst snd].
  rewrite doctor_options_set, He. cbn [fmap option_fmap option_map].
  unfold rebuild, length_gt0.
  destruct data as [|b|repr|s|items|props]; try done; try (by split; [right|]).
  - by split; [left|].
  - destruct (truthy s); by split; [left + right|].
  - destruct (own_property "length" props) as [v|]; [|by split; [right|]].
    split; [|done].
    destruct (gt0 str_gt0 v) as [[|]|ex] eqn:Hgt; [by left|by right|].
    assert (ex = TypeError) as ->
      by (unfold gt0 in Hgt; repeat case_match; congruence).
    by left.
Qed.

End Odd_responses.

(** ** Any sequence of events *)

Lemma same_but_doctor_refl d : same_but_doctor d d.
Proof. by intros id. Qed.

Lemma same_but_doctor_trans d1 d2 d3 :
  same_but_doctor d1 d2 → same_but_doctor d2 d3 → same_but_doctor d1 d3.
Proof.
  intros H12 H23 id.
  destruct (H12 id) as (Hl & Ho & Hv), (H23 id) as (Hl' & Ho' & Hv').
  split; [congruence|]. split; intros; [rewrite Ho'|rewrite Hv']; auto.
Qed.

Lemma same_but_doctor_value v id d :
  id = "id_specialty" ∨ id = "id_date" →
  same_but_doctor d (alter (with_value v) id d).
Proof.
  intros Hid id'.
  rewrite (fmap_lookup_alter_same el_listeners), (fmap_lookup_alter_same el_options)
    by done.
  split; [done|]. split; [done|]. intros Hs Hd.
  rewrite lookup_alter_ne; [done|]. by destruct Hid as [->| ->].
Qed.

Lemma same_but_doctor_options os d :
  same_but_doctor d (alter (with_options os) "id_doctor" d).
Proof.
  intros id'.
  rewrite (fmap_lookup_alter_same el_listeners), (fmap_lookup_alter_same el_value)
    by done.
  split; [done|]. split; [|done]. intros Hne. by rewrite lookup_alter_ne.
Qed.

Lemma same_but_doctor_present d d' id :
  same_but_doctor d d' → is_Some (d' !! id) ↔ is_Some (d !! id).
Proof.
  intros H. destruct (H id) as (Hl & _).
  destruct (d !! id), (d' !! id); simpl in Hl; try done.
  all: split; intros [??]; done.
Qed.

Lemma same_but_doctor_ref w w' :
  same_but_doctor (dom w) (dom w') → doctor_ref w' = doctor_ref w.
Proof.
  intros H. pose proof (same_but_doctor_present _ _ "id_doctor" H) as Hp.
  unfold doctor_ref.
  destruct (dom w !! "id_doctor"), (dom w' !! "id_doctor"); try done.
  - destruct Hp as [_ Hp]. by destruct Hp as [??]; [eexists|].
  - destruct Hp as [Hp _]. by destruct Hp as [??]; [eexists|].
Qed.

Lemma same_but_doctor_set_up w w' :
  same_but_doctor (dom w) (dom w') → page_set_up w → page_set_up w'.
Proof.
  intros H [Hready Hdate].
  destruct (H "id_specialty") as (Hs & _), (H "id_date") as (Hd & _).
  unfold page_set_up, page_ready in *. by rewrite Hs, Hd.
Qed.

Lemma requests_from_script_ref w w' :
  doctor_ref w' = doctor_ref w →
  Forall (λ rq, req_doctorSelect rq = doctor_ref w
                ∧ ∃ v, v ≠ "" ∧ req_url rq = doctors_url v) (inflight w') →
  requests_from_script w'.
Proof. unfold requests_from_script. by intros ->. Qed.

Section Sequences.

Variable str_gt0 : string → bool.

(** One event on a page that is set up: what the document keeps, which
    requests stay in flight, and how the counter and the options move. *)
Lemma step_set_up ev w :
  page_set_up w → requests_from_script w →
  same_but_doctor (dom w) (dom (step str_gt0 ev w))
  ∧ Forall (λ rq, req_doctorSelect rq = doctor_ref w
                  ∧ ∃ v, v ≠ "" ∧ req_url rq = doctors_url v)
      (inflight (step str_gt0 ev w))
  ∧ (length (inflight (step str_gt0 ev w)), doctor_options (step str_gt0 ev w))
    = count_step str_gt0 (length (inflight w), doctor_options w) ev.
Proof.
  intros Hset Hreq. pose proof Hset as [Hready _].
  unfold requests_from_script in Hreq.
  assert (∀ w', dom w' !! "id_doctor" = dom w !! "id_doctor" →
                doctor_options w' = doctor_options w) as Hsame_opts
    by (unfold doctor_options; by intros w' ->).
  assert (∀ os w', dom w' !! "id_doctor" = dom w !! "id_doctor" →
                   doctor_options (set_options "id_doctor" os w')
                   = (λ _, os) <$> doctor_options w) as Hset_opts.
  { intros os w' Hw'. rewrite doctor_options_set, Hw'. unfold doctor_options.
    by destruct (dom w !! "id_doctor"). }
  assert (doctor_ref w = RNull → doctor_options w = None) as Hnone.
  { unfold doctor_ref, doctor_options. by destruct (dom w !! "id_doctor"). }
  destruct ev as [v|d|k resp]; cbn [step count_step].
  - rewrite select_specialty_ready, on_specialty_change_ready by done.
    destruct (truthy v) eqn:Hv; cbn [fst].
    + cbn [dom inflight]. split; [by apply same_but_doctor_value; left|].
      split.
      * apply Forall_app. split; [done|]. constructor; [|done].
        split; [done|]. exists v. by rewrite <- truthy_nonempty.
      * rewrite length_app, Nat.add_1_r. f_equal.
        apply Hsame_opts. cbn [dom]. by apply pick_lookup_ne.
    + remember (doctor_ref w) as r eqn:Hr in *.
      assert (r = RNull ∨ r = RElem "id_doctor") as [->| ->]
        by (rewrite Hr; unfold doctor_ref; destruct (dom w !! "id_doctor"); auto).
      * cbn [set_innerHTML fst].
        split; [by apply same_but_doctor_value; left|]. split; [done|].
        f_equal. rewrite Hnone by done.
        rewrite (Hsame_opts (pick v w)) by (by apply pick_lookup_ne).
        by apply Hnone.
      * rewrite set_innerHTML_elem, parse_choose_specialty. cbn [fst].
        split; [|split; [done|]].
        { eapply same_but_doctor_trans;
            [by apply (same_but_doctor_value v "id_specialty"); left|].
          apply same_but_doctor_options. }
        f_equal. apply Hset_opts. by apply pick_lookup_ne.
  - rewrite select_date_run by done. cbn [fst].
    split; [by apply same_but_doctor_value; right|]. split; [done|].
    f_equal. apply Hsame_opts. unfold pick_date. cbn [with_dom dom].
    by apply lookup_alter_ne.
  - unfold settle. destruct (inflight w !! k) as [rq|] eqn:Hk.
    + pose proof (lookup_lt_Some _ _ _ Hk) as Hlt.
      rewrite bool_decide_true by done.
      destruct (Forall_lookup_1 _ _ _ _ Hreq Hk) as [Href _].
      assert (length (delete k (inflight w)) = length (inflight w) - 1) as Hlen
        by (by apply length_delete; eexists).
      pose proof (Forall_delete _ _ k Hreq) as Hdel.
      destruct resp as [| |data]; cbn [fst dom inflight];
        [by rewrite Hlen; repeat split; try apply same_but_doctor_refl ..|].
      rewrite Href.
      remember (doctor_ref w) as r eqn:Hr in *.
      assert (r = RNull ∨ r = RElem "id_doctor") as [->| ->]
        by (rewrite Hr; unfold doctor_ref; destruct (dom w !! "id_doctor"); auto).
      * rewrite on_data_null. cbn [fst dom inflight].
        split; [apply same_but_doctor_refl|]. split; [done|].
        rewrite Hlen. f_equal. rewrite Hnone by done.
        rewrite (Hsame_opts (mkWorld _ _)) by done. by apply Hnone.
      * rewrite on_data_elem. cbn [fst].
        split; [apply same_but_doctor_options|]. split; [done|].
        cbn [set_options with_dom inflight]. rewrite Hlen. f_equal.
        by apply (Hset_opts _ (mkWorld _ _)).
    + rewrite bool_decide_false
        by (apply lookup_ge_None in Hk; lia).
      cbn [fst]. by repeat split; try apply same_but_doctor_refl.
Qed.

Lemma step_keeps_set_up ev w :
  page_set_up w → requests_from_script w →
  page_set_up (step str_gt0 ev w) ∧ requests_from_script (step str_gt0 ev w).
Proof.
  intros Hset Hreq.
  destruct (step_set_up ev w Hset Hreq) as (Hsame & Hin & _).
  split; [by eapply same_but_doctor_set_up|].
  apply (requests_from_script_ref w); [by apply same_but_doctor_ref|done].
Qed.

End Sequences.

Section Sequence_theorems.

Variable str_gt0 : string → bool.


(** X8.  On a page that is set up, the number of requests in flight and the
    options of the doctor control after any sequence of events are those of
    [count_step] run over the same events: a response writes to the control
    whenever it answers a request still in flight, whichever selection sent
    that request and whatever the specialty control shows by then. *)
Theorem control_follows_event_order evs w :
  page_set_up w → requests_from_script w →
  (length (inflight (run str_gt0 evs w)), doctor_options (run str_gt0 evs w))
  = foldl (count_step str_gt0) (length (inflight w), doctor_options w) evs.
Proof.
  revert w. induction evs as [|ev evs IH]; intros w Hset Hreq; [done|].
  destruct (step_set_up str_gt0 ev w Hset Hreq) as (_ & _ & Hcount).
  destruct (step_keeps_set_up str_gt0 ev w Hset Hreq) as [Hset1 Hreq1].
  cbn [foldl]. rewrite <- Hcount. by apply IH.
Qed.

(** X9.  Non-empty selections made one after the other, with no response in
    between, put one request each in flight, in the order of the selections
    and behind those already there; none is dropped or merged, also when the
    same value is selected again.  The doctor control is not touched. *)
Theorem selections_queue_requests vs w :
  page_ready w → Forall (λ v, v ≠ "") vs →
  inflight (run str_gt0 (UserSelects <$> vs) w)
  = inflight w ++ ((λ v, doctors_request v w) <$> vs)
  ∧ doctor_options (run str_gt0 (UserSelects <$> vs) w) = doctor_options w.
Proof.
  intros Hready Hvs. revert w Hready.
  induction Hvs as [|v vs Hv _ IH]; intros w Hready.
  - by rewrite app_nil_r.
  - apply truthy_nonempty in Hv.
    cbn [fmap list_fmap run foldl step].
    rewrite select_specialty_nonempty by done. cbn [fst].
    set (w1 := mkWorld (dom (pick v w)) (inflight w ++ [doctors_request v w])).
    assert (page_ready w1) as Hready1
      by (by apply (page_ready_same_dom (pick v w)), page_ready_pick).
    assert (doctor_ref w1 = doctor_ref w) as Href
      by (unfold doctor_ref, w1; cbn [dom]; by rewrite pick_lookup_ne).
    destruct (IH w1 Hready1) as [Hin Hopts].
    unfold run in Hin, Hopts. rewrite Hin, Hopts. split.
    + unfold w1 at 1. cbn [inflight]. rewrite <- app_assoc. do 2 f_equal.
      apply list_fmap_ext. intros _ v' _. unfold doctors_request. by rewrite Href.
    + unfold doctor_options, w1. cbn [dom]. by rewrite pick_lookup_ne.
Qed.

(** X6.  The user selects a specialty and then clears the selection before
    the response arrives.  Clearing shows the placeholder but leaves the
    request in flight; when its response arrives, the callback replaces the
    placeholder by what the response gives, while the specialty control
    shows no selection. *)
Theorem stale_response_after_clearing v data w :
  page_ready w → is_Some (dom w !! "id_doctor") → v ≠ "" →
  let n := length (inflight w) in
  let w2 := fst (select_specialty "" (fst (select_specialty v w))) in
  let w3 := fst (settle str_gt0 n (Parsed data) w2) in
  doctor_options w2
  = Some [mkOption (Some "") "Сначала выберите специальность" false]
  ∧ inflight w2 = inflight w ++ [doctors_request v w]
  ∧ el_value <$> dom w3 !! "id_specialty" = Some ""
  ∧ doctor_options w3 = Some (fst (rebuild str_gt0 data))
  ∧ ∀ items docs, data = JArr items → docs ≠ [] →
      Forall2 doctor_record items docs →
      doctor_options w3 = Some (doctor_option <$> docs).
Proof.
  intros Hready Hdoc Hv n w2 w3. apply truthy_nonempty in Hv.
  set (w1 := mkWorld (dom (pick v w)) (inflight w ++ [doctors_request v w])).
  assert (page_ready w1) as Hready1
    by (by apply (page_ready_same_dom (pick v w)), page_ready_pick).
  assert (is_Some (dom w1 !! "id_doctor")) as Hdoc1
    by (unfold w1; cbn [dom]; by rewrite pick_lookup_ne).
  assert (w2 = set_options "id_doctor" [choose_specialty_option] (pick "" w1))
    as Hw2.
  { unfold w2. rewrite (select_specialty_nonempty v w Hready Hv). cbn [fst].
    fold w1.
    rewrite (select_specialty_ready "" w1 Hready1),
      (on_specialty_change_ready "" w1 Hready1).
    simpl truthy. cbv iota.
    by rewrite (doctor_ref_present w1 Hdoc1), set_innerHTML_elem,
      parse_choose_specialty. }
  assert (doctor_options w3 = Some (fst (rebuild str_gt0 data))) as Hopts.
  { unfold w3. rewrite Hw2. unfold set_options, pick, with_dom, w1.
    cbn [dom inflight]. unfold n. rewrite settle_parsed_at.
    cbn [req_doctorSelect doctors_request].
    rewrite doctor_ref_present, on_data_elem by done. cbn [fst].
    rewrite doctor_options_set. cbn [dom].
    rewrite lookup_alter_eq, lookup_alter_ne, pick_lookup_ne by done.
    by destruct Hdoc as [e ->]. }
  split; [|split; [|split; [|split]]].
  - rewrite Hw2, doctor_options_set, pick_lookup_ne by done.
    by destruct Hdoc1 as [e ->].
  - by rewrite Hw2.
  - unfold w3. rewrite Hw2. unfold set_options, pick, with_dom, w1.
    cbn [dom inflight]. unfold n. rewrite settle_parsed_at.
    cbn [req_doctorSelect doctors_request].
    rewrite doctor_ref_present, on_data_elem by done. cbn [fst].
    rewrite set_options_lookup_ne by done. cbn [dom].
    rewrite lookup_alter_ne, lookup_alter_eq by done.
    unfold pick. cbn [with_dom dom]. rewrite lookup_alter_eq.
    unfold page_ready in Hready.
    by destruct (dom w !! "id_specialty").
  - done.
  - intros items docs -> Hne Hrec.
    by rewrite Hopts, (rebuild_doctors str_gt0 items docs).
Qed.

End Sequence_theorems.

(** * The further properties at concrete pages *)

Lemma booking_page_set_up : page_set_up booking_page.
Proof. split; [|right]; vm_compute; reflexivity. Qed.

Lemma booking_page_requests : requests_from_script booking_page.
Proof.
  unfold requests_from_script.
  replace (inflight booking_page) with (@nil Request) by (vm_compute; reflexivity).
  constructor.
Qed.

(** X1 on the fresh booking form. *)
Lemma setup_attaches_listeners_witness :
  snd (on_DOMContentLoaded fresh_page) = Normal tt
  ∧ page_set_up (fst (on_DOMContentLoaded fresh_page)).
Proof.
  destruct (setup_attaches_listeners fresh_page)
    as (Hnormal & _ & _ & _ & _ & Hset).
  - eexists. vm_compute. reflexivity.
  - split; [exact Hnormal|].
    apply Hset; [|right]; vm_compute; reflexivity.
Defined.

(** X2 on the booking page. *)
Lemma date_change_does_nothing_witness :
  Forall (λ c, c = Normal tt) (snd (select_date "2026-11-02" booking_page))
  ∧ inflight (fst (select_date "2026-11-02" booking_page)) = inflight booking_page
  ∧ doctor_options (fst (select_date "2026-11-02" booking_page))
    = doctor_options booking_page.
Proof.
  destruct (date_change_does_nothing "2026-11-02" booking_page)
    as (Hnormal & Hin & Hopts & _).
  - split; [|right]; vm_compute; reflexivity.
  - split; [exact Hnormal|]. split; [exact Hin|exact Hopts].
Defined.

(** X3 on the booking page, for the response [null]. *)
Lemma non_array_response_witness :
  let r := on_data no_string_gt0 (RElem "id_doctor") JNull booking_page in
  snd r = Throw TypeError ∧ doctor_options (fst r) = Some [].
Proof.
  destruct (non_array_response no_string_gt0 JNull booking_page) as [_ Hnull].
  - eexists. vm_compute. reflexivity.
  - reflexivity.
  - exact Hnull.
Defined.

(** X4 on the booking page: the [null] stops the loop after one option. *)
Lemma first_bad_item_stops_loop_witness :
  let r := on_data no_string_gt0 (RElem "id_doctor") (JArr items_with_null)
             booking_page in
  snd r = Throw TypeError
  ∧ ∃ opts, doctor_options (fst r) = Some opts
      ∧ Forall2 (λ j o, option_for j = Normal o) (shown_prefix items_with_null) opts
      ∧ length opts < length items_with_null.
Proof.
  apply (first_bad_item_stops_loop no_string_gt0 items_with_null booking_page).
  - eexists. vm_compute. reflexivity.
  - reflexivity.
Defined.

(** X5 on the booking page. *)
Lemma request_url_carries_selection_witness :
  ∃ rq, last (inflight (fst (select_specialty "3" booking_page))) = Some rq
    ∧ req_url rq = "/get-doctors/?specialty_id=" +:+ "3"
    ∧ strip_prefix "/get-doctors/?specialty_id=" (req_url rq) = Some "3".
Proof.
  destruct (request_url_carries_selection "3" booking_page) as [Hlast _].
  - vm_compute. reflexivity.
  - discriminate.
  - exact Hlast.
Defined.

(** X6 on the booking page. *)
Lemma stale_response_after_clearing_witness :
  let w2 := fst (select_specialty "" (fst (select_specialty "3" booking_page))) in
  let w3 := fst (settle no_string_gt0 0 (Parsed (JArr example_items)) w2) in
  doctor_options w2
  = Some [mkOption (Some "") "Сначала выберите специальность" false]
  ∧ el_value <$> dom w3 !! "id_specialty" = Some ""
  ∧ doctor_options w3 = Some (doctor_option <$> example_doctors).
Proof.
  destruct (stale_response_after_clearing no_string_gt0 "3" (JArr example_items)
              booking_page)
    as (Hplaceholder & _ & Hvalue & _ & Hdoctors).
  - vm_compute. reflexivity.
  - eexists. vm_compute. reflexivity.
  - discriminate.
  - split; [exact Hplaceholder|]. split; [exact Hvalue|].
    apply (Hdoctors example_items example_doctors); [reflexivity|discriminate|].
    repeat constructor.
Defined.


(** X8 on the example session: nothing left in flight, the doctors of 3 in
    the control although 5 is selected. *)
Lemma control_follows_event_order_witness :
  (length (inflight (run no_string_gt0 example_events booking_page)),
   doctor_options (run no_string_gt0 example_events booking_page))
  = foldl (count_step no_string_gt0)
      (length (inflight booking_page), doctor_options booking_page)
      example_events.
Proof.
  apply (control_follows_event_order no_string_gt0 example_events booking_page).
  - split; [|right]; vm_compute; reflexivity.
  - exact (List.Forall_nil _).
Defined.

(** X9 on the booking page: the same specialty twice, then another. *)
Lemma selections_queue_requests_witness :
  inflight (run no_string_gt0 (UserSelects <$> ["3"; "3"; "5"]) booking_page)
  = inflight booking_page
    ++ ((λ v, doctors_request v booking_page) <$> ["3"; "3"; "5"])
  ∧ doctor_options (run no_string_gt0 (UserSelects <$> ["3"; "3"; "5"]) booking_page)
    = doctor_options booking_page.
Proof.
  apply (selections_queue_requests no_string_gt0 ["3"; "3"; "5"] booking_page).
  - vm_compute. reflexivity.
  - repeat constructor; discriminate.
Defined.

(** X10 on the booking page: a list of names. *)
Lemma fieldless_items_give_blank_options_witness :
  let r := on_data no_string_gt0 (RElem "id_doctor") (JArr name_items)
             booking_page in
  snd r = Normal tt
  ∧ doctor_options (fst r)
    = Some (replicate (length name_items) (mkOption (Some "undefined") "" false)).
Proof.
  apply (fieldless_items_give_blank_options no_string_gt0 name_items booking_page).
  - eexists. vm_compute. reflexivity.
  - discriminate.
  - repeat constructor.
Defined.
